(** * Verification of [visualizer.py] (class [Visualizer])

    The module holds two independent operations:
    - [create_instruction_graph]: builds a chain graph over a kernel's
      instruction list (using networkx's [DiGraph]);
    - [text_report]: renders a precomputed diff report as marked-up lines.

    Python values are embedded as follows.  A [str] is a Rocq [string] whose
    characters are read as the code points U+0000..U+00FF; an [int] is a [Z];
    a [list] is a [list]; a [dict] is an insertion-ordered association list
    with unique keys ([PyDict]); dicts that the code uses as structs with
    fixed field names are records. *)

From Stdlib Require Import String Ascii List ZArith Lia Bool.
From Stdlib Require Import Decimal DecimalString DecimalPos DecimalZ Finite.
Import ListNotations.

Local Open Scope string_scope.
Local Open Scope list_scope.

(** ** Python built-ins used by the module *)

Module Py.

(** The one-character string ["\n"]. *)
Definition nl_char : ascii := ascii_of_nat 10.
Definition nl : string := String nl_char EmptyString.

(** [sep.join(parts)]. *)
Definition join (sep : string) (parts : list string) : string :=
  String.concat sep parts.

(** [s.startswith(p)]. *)
Definition startswith (s p : string) : bool := String.prefix p s.

(** [s.split(sep)] for a one-character separator: the text is cut at every
    occurrence of the separator, so the result has one more element than
    there are separators (and is never empty). *)
Fixpoint split (sep : ascii) (s : string) : list string :=
  match s with
  | EmptyString => [EmptyString]
  | String c rest =>
      if Ascii.eqb c sep then EmptyString :: split sep rest
      else match split sep rest with
           | [] => [String c EmptyString]
           | seg :: segs => String c seg :: segs
           end
  end.

(** [str(i)] for an int. *)
Definition str_int (i : Z) : string := NilZero.string_of_int (Z.to_int i).

(** [len(l)]. *)
Definition len {A} (l : list A) : Z := Z.of_nat (length l).

(** [range(n)]: empty when [n <= 0]. *)
Definition range (n : Z) : list Z := map Z.of_nat (seq 0 (Z.to_nat n)).

(** [enumerate(l)]. *)
Definition enumerate {A} (l : list A) : list (Z * A) :=
  combine (map Z.of_nat (seq 0 (length l))) l.

(** Truth value of a list: non-empty. *)
Definition truthy {A} (l : list A) : bool :=
  match l with [] => false | _ :: _ => true end.

(** *** [repr] of a str and [str] of a list of str *)

Definition squote : ascii := ascii_of_nat 39.
Definition dquote : ascii := ascii_of_nat 34.
Definition backslash : ascii := ascii_of_nat 92.

Fixpoint contains (c : ascii) (s : string) : bool :=
  match s with
  | EmptyString => false
  | String d rest => Ascii.eqb c d || contains c rest
  end.

(** The quote [repr] chooses: double quotes only when the text has a single
    quote and no double quote. *)
Definition repr_quote (s : string) : ascii :=
  if contains squote s && negb (contains dquote s) then dquote else squote.

Definition hex_digit (n : nat) : ascii :=
  if Nat.ltb n 10 then ascii_of_nat (48 + n) else ascii_of_nat (87 + n).

(** [str.isprintable] on U+0000..U+00FF: the controls U+0000..U+001F and
    U+007F..U+009F, the no-break space U+00A0 and the soft hyphen U+00AD
    are not printable. *)
Definition isprintable (c : ascii) : bool :=
  let n := nat_of_ascii c in
  negb (Nat.ltb n 32 || (Nat.leb 127 n && Nat.leb n 160) || Nat.eqb n 173).

Definition repr_char (quote c : ascii) : string :=
  let n := nat_of_ascii c in
  if Ascii.eqb c quote || Ascii.eqb c backslash then
    String backslash (String c EmptyString)
  else if Nat.eqb n 9 then String backslash "t"
  else if Nat.eqb n 10 then String backslash "n"
  else if Nat.eqb n 13 then String backslash "r"
  else if isprintable c then String c EmptyString
  else String backslash
         (String "x" (String (hex_digit (n / 16))
                        (String (hex_digit (n mod 16)) EmptyString))).

Fixpoint repr_body (quote : ascii) (s : string) : string :=
  match s with
  | EmptyString => EmptyString
  | String c rest => repr_char quote c ++ repr_body quote rest
  end.

(** [repr(s)]. *)
Definition repr_str (s : string) : string :=
  let q := repr_quote s in
  String q (repr_body q s ++ String q EmptyString).

(** [str(l)] for a list of str: the elements' [repr]s between brackets. *)
Definition str_list (l : list string) : string :=
  "[" ++ join ", " (map repr_str l) ++ "]".

End Py.

(** ** Insertion-ordered dictionaries *)

Section PyDict.
Context {K V : Type}.
Variable eqb : K -> K -> bool.

Definition PyDict : Type := list (K * V).

(** [d.get(k)], [None] when the key is absent. *)
Fixpoint dict_get (k : K) (d : PyDict) : option V :=
  match d with
  | [] => None
  | (k', v) :: rest => if eqb k k' then Some v else dict_get k rest
  end.

(** [k in d]. *)
Definition dict_mem (k : K) (d : PyDict) : bool :=
  match dict_get k d with Some _ => true | None => false end.

(** [d[k] = v]: an existing key keeps its position, a new key goes last. *)
Fixpoint dict_set (k : K) (v : V) (d : PyDict) : PyDict :=
  match d with
  | [] => [(k, v)]
  | (k', v') :: rest =>
      if eqb k k' then (k', v) :: rest else (k', v') :: dict_set k v rest
  end.

Definition dict_keys (d : PyDict) : list K := map fst d.
Definition dict_items (d : PyDict) : list (K * V) := d.
End PyDict.

Arguments PyDict : clear implicits.

(** ** The report formatter *)

(** One entry of [changed_kernels]: a dict read only at ["instruction_diff"]. *)
Record Changes : Type := mkChanges { instruction_diff : string }.

(** The diff report: a dict read at its three keys. *)
Record DiffReport : Type := mkDiffReport {
  new_kernels : list string;
  removed_kernels : list string;
  changed_kernels : PyDict string Changes
}.

(** The state a call of [text_report] runs in: the caller's report object,
    which the call receives by reference, and the local list [lines]. *)
Record Frame : Type := mkFrame {
  diff_report : DiffReport;
  lines : list string
}.

Definition M (A : Type) : Type := Frame -> A * Frame.

Definition ret {A} (a : A) : M A := fun fr => (a, fr).

Definition bind {A B} (m : M A) (f : A -> M B) : M B :=
  fun fr => let (a, fr') := m fr in f a fr'.

Notation "x <- m ;; k" := (bind m (fun x => k))
  (at level 61, m at next level, right associativity).
Notation "m ;; k" := (bind m (fun _ => k))
  (at level 61, right associativity).

(** [diff_report[key]]: a read of the caller's object. *)
Definition read {A} (field : DiffReport -> A) : M A :=
  fun fr => (field (diff_report fr), fr).

(** [lines = []]. *)
Definition new_lines : M unit :=
  fun fr => (tt, mkFrame (diff_report fr) []).

(** [lines.append(x)]. *)
Definition append (x : string) : M unit :=
  fun fr => (tt, mkFrame (diff_report fr) (lines fr ++ [x])).

Definition get_lines : M (list string) := fun fr => (lines fr, fr).

Definition when (b : bool) (m : M unit) : M unit := if b then m else ret tt.

Fixpoint for_each {A} (l : list A) (body : A -> M unit) : M unit :=
  match l with
  | [] => ret tt
  | x :: rest => body x ;; for_each rest body
  end.

(** The body of the inner loop: the three-way classification of a diff line. *)
Definition emit_diff_line (line : string) : M unit :=
  if Py.startswith line "+" then
    append ("<span class='added'>" ++ line ++ "</span>")
  else if Py.startswith line "-" then
    append ("<span class='removed'>" ++ line ++ "</span>")
  else
    append ("<span class='line-number'>" ++ line ++ "</span>").

Definition text_report_body : M string :=
  new_lines ;;
  nk <- read new_kernels ;;
  when (Py.truthy nk)
    (append ("<span class='added'>New Kernels Found: "
               ++ Py.join ", " nk ++ "</span>")) ;;
  rk <- read removed_kernels ;;
  when (Py.truthy rk)
    (append ("<span class='removed'>Removed Kernels: "
               ++ Py.join ", " rk ++ "</span>")) ;;
  ck <- read changed_kernels ;;
  for_each (dict_items ck) (fun '(kernel, changes) =>
    append ("<h3>Changes in " ++ kernel ++ ":</h3>") ;;
    let diff_lines := Py.split Py.nl_char (instruction_diff changes) in
    for_each diff_lines emit_diff_line) ;;
  ls <- get_lines ;;
  ret (Py.join Py.nl ls).

(** A call: the argument is bound to the caller's object and [lines] starts
    as a fresh local; the call hands back the returned string together with
    the caller's object as the call leaves it. *)
Definition text_report_call (d : DiffReport) : string * DiffReport :=
  let (out, fr) := text_report_body (mkFrame d []) in
  (out, diff_report fr).

Definition text_report (d : DiffReport) : string :=
  fst (text_report_call d).

(** The list [lines] as it stands when the call returns. *)
Definition report_lines (d : DiffReport) : list string :=
  lines (snd (text_report_body (mkFrame d []))).

(** *** The formatter as the specification words it

    Three styles; a summary line for the new kernels and one for the removed
    kernels, each only when there are any; then, per changed kernel in
    mapping order, a heading and one wrapped line per segment of the diff. *)

Inductive Style : Type := Added | Removed | LineNumber.

Definition style_class (st : Style) : string :=
  match st with
  | Added => "added"
  | Removed => "removed"
  | LineNumber => "line-number"
  end.

Definition wrap (st : Style) (text : string) : string :=
  "<span class='" ++ style_class st ++ "'>" ++ text ++ "</span>".

Definition classify (segment : string) : Style :=
  match segment with
  | String "+" _ => Added
  | String "-" _ => Removed
  | _ => LineNumber
  end.

Definition heading (kernel : string) : string :=
  "<h3>Changes in " ++ kernel ++ ":</h3>".

Definition segments (c : Changes) : list string :=
  Py.split Py.nl_char (instruction_diff c).

Definition kernel_section (entry : string * Changes) : list string :=
  heading (fst entry)
    :: map (fun seg => wrap (classify seg) seg) (segments (snd entry)).

Definition new_kernels_line (d : DiffReport) : list string :=
  match new_kernels d with
  | [] => []
  | names => [wrap Added ("New Kernels Found: " ++ Py.join ", " names)]
  end.

Definition removed_kernels_line (d : DiffReport) : list string :=
  match removed_kernels d with
  | [] => []
  | names => [wrap Removed ("Removed Kernels: " ++ Py.join ", " names)]
  end.

Definition spec_lines (d : DiffReport) : list string :=
  new_kernels_line d ++ removed_kernels_line d
    ++ flat_map kernel_section (changed_kernels d).

Definition text_report_spec (d : DiffReport) : string :=
  Py.join Py.nl (spec_lines d).

(** ** The graph builder *)

(** An instruction: a dict read at ['opcode'] and ['operands']. *)
Record Instruction : Type := mkInstruction {
  opcode : string;
  operands : list string
}.

(** A kernel's data: a dict read at ["instructions"]. *)
Record KernelData : Type := mkKernelData {
  instructions : list Instruction
}.

Inductive PyExc : Type :=
| KeyError (key : string).

Inductive Result (A : Type) : Type :=
| Ok (a : A)
| Raise (e : PyExc).
Arguments Ok {A} a.
Arguments Raise {A} e.

(** [d[k]] on a dict keyed by str. *)
Definition dict_index {V} (d : PyDict string V) (k : string) : Result V :=
  match dict_get String.eqb k d with
  | Some v => Ok v
  | None => Raise (KeyError k)
  end.

(** *** networkx's [DiGraph], as far as the builder drives it

    A graph holds three dicts: [_node] (node to attribute dict), [_succ]
    and [_pred] (node to the dict of its successors, resp. predecessors, each
    with the edge's attribute dict).  All three have the same keys. *)

Definition Attrs : Type := PyDict string string.

Record DiGraph : Type := mkDiGraph {
  g_node : PyDict Z Attrs;
  g_succ : PyDict Z (PyDict Z Attrs);
  g_pred : PyDict Z (PyDict Z Attrs)
}.

(** [nx.DiGraph()]. *)
Definition empty_graph : DiGraph := mkDiGraph [] [] [].

(** [a.update(b)]. *)
Definition dict_update (a b : Attrs) : Attrs :=
  fold_left (fun acc kv => dict_set String.eqb (fst kv) (snd kv) acc) b a.

Definition get_or_empty {V} (n : Z) (d : PyDict Z (PyDict Z V)) : PyDict Z V :=
  match dict_get Z.eqb n d with Some x => x | None => [] end.

(** [G.add_node(n, **attr)]: a new node gets empty adjacency dicts and a
    fresh attribute dict; a known node has its attributes updated.  (The
    three dicts share their keys, so a node known to [_succ] has an entry in
    [_node]; the empty default below is never taken.) *)
Definition add_node (n : Z) (attr : Attrs) (G : DiGraph) : DiGraph :=
  if dict_mem Z.eqb n (g_succ G) then
    let old := match dict_get Z.eqb n (g_node G) with
               | Some a => a
               | None => []
               end in
    mkDiGraph (dict_set Z.eqb n (dict_update old attr) (g_node G))
              (g_succ G) (g_pred G)
  else
    mkDiGraph (dict_set Z.eqb n (dict_update [] attr) (g_node G))
              (dict_set Z.eqb n [] (g_succ G))
              (dict_set Z.eqb n [] (g_pred G)).

(** The first half of [add_edge]: an endpoint not yet in the graph is added
    with no attributes. *)
Definition ensure_node (n : Z) (G : DiGraph) : DiGraph :=
  if dict_mem Z.eqb n (g_succ G) then G
  else mkDiGraph (dict_set Z.eqb n [] (g_node G))
                 (dict_set Z.eqb n [] (g_succ G))
                 (dict_set Z.eqb n [] (g_pred G)).

(** [G.add_edge(u, v)] with no attributes: both endpoints are ensured, then
    the edge's attribute dict (the existing one, or a new empty one) is
    stored under [_succ[u][v]] and [_pred[v][u]]. *)
Definition add_edge (u v : Z) (G : DiGraph) : DiGraph :=
  let G1 := ensure_node v (ensure_node u G) in
  let datadict :=
    match dict_get Z.eqb v (get_or_empty u (g_succ G1)) with
    | Some dd => dd
    | None => []
    end in
  mkDiGraph (g_node G1)
            (dict_set Z.eqb u
               (dict_set Z.eqb v datadict (get_or_empty u (g_succ G1)))
               (g_succ G1))
            (dict_set Z.eqb v
               (dict_set Z.eqb u datadict (get_or_empty v (g_pred G1)))
               (g_pred G1)).

(** [G.nodes], [G.number_of_nodes()], [G.edges], [G.number_of_edges()] and
    [G.nodes[n]["label"]]. *)
Definition nodes (G : DiGraph) : list Z := dict_keys (g_node G).

Definition number_of_nodes (G : DiGraph) : Z := Py.len (g_node G).

Definition edges (G : DiGraph) : list (Z * Z) :=
  flat_map (fun entry => map (fun nbr => (fst entry, fst nbr)) (snd entry))
           (g_succ G).

Definition number_of_edges (G : DiGraph) : Z := Py.len (edges G).

Definition node_label (G : DiGraph) (n : Z) : option string :=
  match dict_get Z.eqb n (g_node G) with
  | Some attrs => dict_get String.eqb "label" attrs
  | None => None
  end.

(** *** [create_instruction_graph] *)

(** The f-string [f"{idx}: {ins['opcode']} {ins['operands']}"]. *)
Definition format_label (idx : Z) (ins : Instruction) : string :=
  Py.str_int idx ++ ": " ++ opcode ins ++ " " ++ Py.str_list (operands ins).

Definition add_nodes_loop (instrs : list Instruction) (G : DiGraph) : DiGraph :=
  fold_left
    (fun G '(idx, ins) =>
       let node_label := format_label idx ins in
       add_node idx [("label", node_label)] G)
    (Py.enumerate instrs) G.

Definition add_edges_loop (instrs : list Instruction) (G : DiGraph) : DiGraph :=
  fold_left (fun G i => add_edge i (i + 1) G)
            (Py.range (Py.len instrs - 1)) G.

Definition create_instruction_graph
    (ptx_data : PyDict string KernelData) (kernel_name : string)
  : Result DiGraph :=
  let G := empty_graph in
  match dict_index ptx_data kernel_name with
  | Raise e => Raise e
  | Ok kernel =>
      let instrs := instructions kernel in
      let G := add_nodes_loop instrs G in
      let G := add_edges_loop instrs G in
      Ok G
  end.


(** ** The report formatter over a heap of objects

    Python passes [diff_report] by reference, and the lists and dicts it
    holds are mutable objects that the caller still sees after the call.
    This second embedding of [text_report] keeps those objects in a heap:

    - a value is a str (immutable, held directly) or a reference;
    - an object is a list or a dict with str keys;
    - every operation of the body goes through the heap, and an operation
      applied to a value of the wrong kind raises as Python does. *)

Definition Addr : Type := nat.

Inductive Val : Type :=
| VStr (s : string)
| VRef (a : Addr).

Inductive Obj : Type :=
| OList (items : list Val)
| ODict (entries : PyDict string Val).

Definition Heap : Type := list Obj.

(** The exceptions of the operations below; [HDangling] marks a reference
    to no object, which no Python program can produce. *)
Inductive HeapExc : Type :=
| HKeyError (key : string)
| HTypeError
| HAttributeError
| HDangling.

Inductive Outcome (A : Type) : Type :=
| Returns (a : A) (h : Heap)
| Raises (e : HeapExc) (h : Heap).
Arguments Returns {A} a h.
Arguments Raises {A} e h.

Definition HM (A : Type) : Type := Heap -> Outcome A.

Definition hret {A} (a : A) : HM A := fun h => Returns a h.

Definition hbind {A B} (m : HM A) (f : A -> HM B) : HM B :=
  fun h =>
    match m h with
    | Returns a h' => f a h'
    | Raises e h' => Raises e h'
    end.

Notation "x <<- m ;; k" := (hbind m (fun x => k))
  (at level 61, m at next level, right associativity).
Notation "m ;;; k" := (hbind m (fun _ => k))
  (at level 61, right associativity).

(** A new object, at the first unused address. *)
Definition alloc (o : Obj) : HM Val :=
  fun h => Returns (VRef (length h)) (h ++ [o]).

(** The heap with the object at [a] replaced. *)
Fixpoint heap_set (a : Addr) (o : Obj) (h : Heap) : Heap :=
  match h, a with
  | [], _ => []
  | _ :: rest, O => o :: rest
  | x :: rest, S a' => x :: heap_set a' o rest
  end.

(** [target.append(x)]: only a list has [append]; the list object is
    updated in place. *)
Definition list_append (target x : Val) : HM unit :=
  fun h =>
    match target with
    | VStr _ => Raises HAttributeError h
    | VRef a =>
        match nth_error h a with
        | Some (OList items) =>
            Returns tt (heap_set a (OList (items ++ [x])) h)
        | Some (ODict _) => Raises HAttributeError h
        | None => Raises HDangling h
        end
    end.

(** [v[key]] for a str [key]: a dict looks the key up; a list or a str
    rejects a str index. *)
Definition subscript (v : Val) (key : string) : HM Val :=
  fun h =>
    match v with
    | VStr _ => Raises HTypeError h
    | VRef a =>
        match nth_error h a with
        | Some (ODict entries) =>
            match dict_get String.eqb key entries with
            | Some x => Returns x h
            | None => Raises (HKeyError key) h
            end
        | Some (OList _) => Raises HTypeError h
        | None => Raises HDangling h
        end
    end.

(** The truth value of [v]: non-empty. *)
Definition truth (v : Val) : HM bool :=
  fun h =>
    match v with
    | VStr s => Returns (negb (String.eqb s "")) h
    | VRef a =>
        match nth_error h a with
        | Some (OList items) => Returns (Py.truthy items) h
        | Some (ODict entries) => Returns (Py.truthy entries) h
        | None => Raises HDangling h
        end
    end.

(** The strs of a list of values, if all of them are strs. *)
Fixpoint strs_of (items : list Val) : option (list string) :=
  match items with
  | [] => Some []
  | VStr s :: rest => option_map (cons s) (strs_of rest)
  | VRef _ :: _ => None
  end.

(** The characters of a str, each as a str. *)
Fixpoint chars_of (s : string) : list string :=
  match s with
  | EmptyString => []
  | String c rest => String c EmptyString :: chars_of rest
  end.

(** [sep.join(v)]: [v] is iterated (a list gives its items, a dict its
    keys, a str its characters) and every item must be a str. *)
Definition str_join (sep : string) (v : Val) : HM string :=
  fun h =>
    match v with
    | VStr s => Returns (Py.join sep (chars_of s)) h
    | VRef a =>
        match nth_error h a with
        | Some (OList items) =>
            match strs_of items with
            | Some parts => Returns (Py.join sep parts) h
            | None => Raises HTypeError h
            end
        | Some (ODict entries) => Returns (Py.join sep (dict_keys entries)) h
        | None => Raises HDangling h
        end
    end.

(** [v.items()]: only a dict has [items]. *)
Definition items_of (v : Val) : HM (list (string * Val)) :=
  fun h =>
    match v with
    | VStr _ => Raises HAttributeError h
    | VRef a =>
        match nth_error h a with
        | Some (ODict entries) => Returns (dict_items entries) h
        | Some (OList _) => Raises HAttributeError h
        | None => Raises HDangling h
        end
    end.

(** [v.split(sep)]: only a str has [split]. *)
Definition str_split (sep : ascii) (v : Val) : HM (list string) :=
  fun h =>
    match v with
    | VStr s => Returns (Py.split sep s) h
    | VRef a =>
        match nth_error h a with
        | Some _ => Raises HAttributeError h
        | None => Raises HDangling h
        end
    end.

Definition hwhen (b : bool) (m : HM unit) : HM unit :=
  if b then m else hret tt.

Fixpoint hfor_each {A} (l : list A) (body : A -> HM unit) : HM unit :=
  match l with
  | [] => hret tt
  | x :: rest => body x ;;; hfor_each rest body
  end.

(** The inner loop's body, appending to the list object [lines]. *)
Definition emit_diff_line_heap (lines : Val) (line : string) : HM unit :=
  if Py.startswith line "+" then
    list_append lines (VStr ("<span class='added'>" ++ line ++ "</span>"))
  else if Py.startswith line "-" then
    list_append lines (VStr ("<span class='removed'>" ++ line ++ "</span>"))
  else
    list_append lines
                (VStr ("<span class='line-number'>" ++ line ++ "</span>")).

(** [text_report(diff_report)] on the heap. *)
Definition text_report_heap (diff_report : Val) : HM string :=
  lines <<- alloc (OList []) ;;
  nk <<- subscript diff_report "new_kernels" ;;
  has_new <<- truth nk ;;
  hwhen has_new
    (nk' <<- subscript diff_report "new_kernels" ;;
     names <<- str_join ", " nk' ;;
     list_append lines
       (VStr ("<span class='added'>New Kernels Found: "
                ++ names ++ "</span>"))) ;;;
  rk <<- subscript diff_report "removed_kernels" ;;
  has_removed <<- truth rk ;;
  hwhen has_removed
    (rk' <<- subscript diff_report "removed_kernels" ;;
     names <<- str_join ", " rk' ;;
     list_append lines
       (VStr ("<span class='removed'>Removed Kernels: "
                ++ names ++ "</span>"))) ;;;
  ck <<- subscript diff_report "changed_kernels" ;;
  entries <<- items_of ck ;;
  hfor_each entries (fun '(kernel, changes) =>
    list_append lines (VStr ("<h3>Changes in " ++ kernel ++ ":</h3>")) ;;;
    diff <<- subscript changes "instruction_diff" ;;
    diff_lines <<- str_split Py.nl_char diff ;;
    hfor_each diff_lines (emit_diff_line_heap lines)) ;;;
  str_join Py.nl lines.

(** *** Heaps that hold a given report *)

(** [v] refers to a list of the strs [names]. *)
Definition holds_names (h : Heap) (v : Val) (names : list string) : Prop :=
  exists a, v = VRef a /\ nth_error h a = Some (OList (map VStr names)).

(** [v] refers to a dict whose ["instruction_diff"] is the text of [c]. *)
Definition holds_changes (h : Heap) (v : Val) (c : Changes) : Prop :=
  exists a entries,
    v = VRef a
    /\ nth_error h a = Some (ODict entries)
    /\ dict_get String.eqb "instruction_diff" entries
       = Some (VStr (instruction_diff c)).

(** [v] refers to a dict with the keys of [ck], in order, each bound to a
    dict for that kernel's changes. *)
Definition holds_changed (h : Heap) (v : Val) (ck : PyDict string Changes)
  : Prop :=
  exists a entries,
    v = VRef a
    /\ nth_error h a = Some (ODict entries)
    /\ Forall2 (fun entry kc =>
                  fst entry = fst kc /\ holds_changes h (snd entry) (snd kc))
               entries ck.

(** [v] refers to a dict that holds the report [d] under the three keys.
    Nothing is asked of the addresses: objects may be shared, and the heap
    and the dict may hold more. *)
Definition holds_report (h : Heap) (v : Val) (d : DiffReport) : Prop :=
  exists a entries v_new v_removed v_changed,
    v = VRef a
    /\ nth_error h a = Some (ODict entries)
    /\ dict_get String.eqb "new_kernels" entries = Some v_new
    /\ dict_get String.eqb "removed_kernels" entries = Some v_removed
    /\ dict_get String.eqb "changed_kernels" entries = Some v_changed
    /\ holds_names h v_new (new_kernels d)
    /\ holds_names h v_removed (removed_kernels d)
    /\ holds_changed h v_changed (changed_kernels d).

(** ** Definitions used in the proofs *)

(** On the heap [h0] followed by the list object of [lines], the
    computation only appends [out] to that list. *)
Definition hemits (h0 : Heap) (m : HM unit) (out : list string) : Prop :=
  forall ls,
    m (h0 ++ [OList (map VStr ls)])
    = Returns tt (h0 ++ [OList (map VStr (ls ++ out))]).


(** A computation that only appends [out] to [lines]. *)
Definition emits (m : M unit) (out : list string) : Prop :=
  forall fr, m fr = (tt, mkFrame (diff_report fr) (lines fr ++ out)).

(** The dictionary over int keys that holds [f i] under each key [i] of
    [ks]. *)
Definition tabulate {V} (f : Z -> V) (ks : list Z) : PyDict Z V :=
  map (fun i => (i, f i)) ks.

(** [enumerate] counting from [a]. *)
Definition enumerate_from {A} (a : nat) (l : list A) : list (Z * A) :=
  combine (map Z.of_nat (seq a (length l))) l.

(** The [_node] dict after the first loop: one labelled entry per
    instruction, in instruction order. *)
Definition labelled_nodes (instrs : list Instruction) : PyDict Z Attrs :=
  map (fun e => (fst e, [("label", format_label (fst e) (snd e))]))
      (Py.enumerate instrs).

(** The [_succ] dict over the nodes [0 .. n-1] once the edges leaving the
    nodes below [k] are in. *)
Definition chain_succ (k n : Z) : PyDict Z (PyDict Z Attrs) :=
  tabulate (fun i => if (i <? k)%Z then [((i + 1)%Z, [])] else [])
           (Py.range n).

(** [s.count(c)] for a one-character [c]. *)
Fixpoint count_char (c : ascii) (s : string) : nat :=
  match s with
  | EmptyString => 0
  | String d rest =>
      (if Ascii.eqb d c then 1 else 0) + count_char c rest
  end.

(** [G.successors(n)] and [G.predecessors(n)], in the dicts' order; [None]
    stands for the error networkx raises on a node that is not in the
    graph. *)
Definition successors (G : DiGraph) (n : Z) : option (list Z) :=
  option_map (dict_keys (V := Attrs)) (dict_get Z.eqb n (g_succ G)).

Definition predecessors (G : DiGraph) (n : Z) : option (list Z) :=
  option_map (dict_keys (V := Attrs)) (dict_get Z.eqb n (g_pred G)).

(** A directed path of one or more edges. *)
Inductive path (G : DiGraph) : Z -> Z -> Prop :=
| path_edge (u v : Z) : In (u, v) (edges G) -> path G u v
| path_step (u v w : Z) : In (u, v) (edges G) -> path G v w -> path G u w.

(** The [_pred] dict over the nodes [0 .. n-1] once the edges leaving the
    nodes below [k] are in. *)
Definition chain_pred (k n : Z) : PyDict Z (PyDict Z Attrs) :=
  tabulate (fun i => if ((0 <? i) && (i <=? k))%Z
                     then [((i - 1)%Z, [])] else [])
           (Py.range n).

(** The number of lines one entry of [changed_kernels] accounts for. *)
Definition section_size (entry : string * Changes) : nat :=
  2 + count_char Py.nl_char (instruction_diff (snd entry)).

(** ** Sample inputs *)

Definition sample_instructions : list Instruction :=
  [mkInstruction "ld.param.u64" ["%rd1"; "[k_param_0]"];
   mkInstruction "add.s32" ["%r1"; "%r2"; "%r3"];
   mkInstruction "ret" []].

Definition sample_ptx : PyDict string KernelData :=
  [("vec_add", mkKernelData sample_instructions);
   ("empty", mkKernelData [])].

Definition sample_report : DiffReport :=
  mkDiffReport
    ["k_new"; "k_newer"] ["k_old"]
    [("k1", mkChanges ("+add r1" ++ Py.nl ++ "-sub r2" ++ Py.nl
                         ++ " mov r3" ++ Py.nl)%string);
     ("k0", mkChanges "")].

(** A heap that holds a report: the list of new kernels is also the list
    of removed kernels (one shared object), and one kernel changed. *)
Definition sample_heap : Heap :=
  [OList [VStr "k_new"];
   ODict [("instruction_diff",
           VStr ("+add r1" ++ Py.nl ++ "-sub r2" ++ Py.nl ++ " mov r3"));
          ("note", VStr "unused")];
   ODict [("k1", VRef 1)];
   ODict [("new_kernels", VRef 0); ("removed_kernels", VRef 0);
          ("changed_kernels", VRef 2)]].

Definition sample_heap_report : DiffReport :=
  mkDiffReport ["k_new"] ["k_new"]
    [("k1", mkChanges ("+add r1" ++ Py.nl ++ "-sub r2" ++ Py.nl
                         ++ " mov r3"))].

(** ** Facts about the built-ins *)

Lemma split_nonempty (sep : ascii) (s : string) : Py.split sep s <> [].
Proof.
  destruct s as [|c rest]; simpl; [discriminate|].
  destruct (Ascii.eqb c sep); [discriminate|].
  destruct (Py.split sep rest); discriminate.
Qed.

(** A text that ends with the separator splits into the segments of the text
    before it, followed by one empty segment. *)
Lemma split_trailing_sep (sep : ascii) (s : string) :
  Py.split sep (s ++ String sep EmptyString)
  = Py.split sep s ++ [EmptyString].
Proof.
  induction s as [|c rest IH]; simpl.
  - now rewrite Ascii.eqb_refl.
  - destruct (Ascii.eqb c sep); rewrite IH; [reflexivity|].
    destruct (Py.split sep rest) eqn:E; [|reflexivity].
    now apply split_nonempty in E.
Qed.

Lemma startswith_plus (line : string) :
  Py.startswith line "+"
  = match line with String "+" _ => true | _ => false end.
Proof.
  destruct line as [|c rest]; [reflexivity|].
  unfold Py.startswith; simpl.
  destruct (ascii_dec "+" c) as [<-|]; [now destruct rest|].
  destruct c as [[] [] [] [] [] [] [] []]; try reflexivity; congruence.
Qed.

Lemma startswith_minus (line : string) :
  Py.startswith line "-"
  = match line with String "-" _ => true | _ => false end.
Proof.
  destruct line as [|c rest]; [reflexivity|].
  unfold Py.startswith; simpl.
  destruct (ascii_dec "-" c) as [<-|]; [now destruct rest|].
  destruct c as [[] [] [] [] [] [] [] []]; try reflexivity; congruence.
Qed.

(** ** Running the formatter's loops *)

Lemma emits_append (x : string) : emits (append x) [x].
Proof. intros fr; reflexivity. Qed.

Lemma emits_ret : emits (ret tt) [].
Proof. intros [d ls]; unfold ret; simpl; now rewrite app_nil_r. Qed.

Lemma emits_seq (m1 m2 : M unit) (o1 o2 : list string) :
  emits m1 o1 -> emits m2 o2 -> emits (m1 ;; m2) (o1 ++ o2).
Proof.
  intros H1 H2 fr; unfold bind; rewrite H1, H2; simpl.
  now rewrite app_assoc.
Qed.

Lemma emits_for_each {A} (l : list A) (body : A -> M unit)
      (out : A -> list string) :
  (forall x, emits (body x) (out x)) ->
  emits (for_each l body) (flat_map out l).
Proof.
  intros Hbody; induction l as [|x rest IH]; simpl.
  - apply emits_ret.
  - apply emits_seq; [apply Hbody | exact IH].
Qed.

Lemma emits_diff_line (line : string) :
  emits (emit_diff_line line) [wrap (classify line) line].
Proof.
  unfold emit_diff_line.
  rewrite startswith_plus, startswith_minus.
  destruct line as [|c rest]; [apply emits_append|].
  destruct c as [[] [] [] [] [] [] [] []]; apply emits_append.
Qed.

Lemma flat_map_singleton {A B} (f : A -> B) (l : list A) :
  flat_map (fun x => [f x]) l = map f l.
Proof. induction l; simpl; congruence. Qed.

Lemma emits_new_kernels (d : DiffReport) :
  emits (when (Py.truthy (new_kernels d))
           (append ("<span class='added'>New Kernels Found: "
                      ++ Py.join ", " (new_kernels d) ++ "</span>")))
        (new_kernels_line d).
Proof.
  unfold new_kernels_line.
  destruct (new_kernels d); [apply emits_ret | apply emits_append].
Qed.

Lemma emits_removed_kernels (d : DiffReport) :
  emits (when (Py.truthy (removed_kernels d))
           (append ("<span class='removed'>Removed Kernels: "
                      ++ Py.join ", " (removed_kernels d) ++ "</span>")))
        (removed_kernels_line d).
Proof.
  unfold removed_kernels_line.
  destruct (removed_kernels d); [apply emits_ret | apply emits_append].
Qed.

Lemma emits_changed_kernels (ck : PyDict string Changes) :
  emits (for_each (dict_items ck) (fun '(kernel, changes) =>
           append ("<h3>Changes in " ++ kernel ++ ":</h3>") ;;
           let diff_lines := Py.split Py.nl_char (instruction_diff changes) in
           for_each diff_lines emit_diff_line))
        (flat_map kernel_section ck).
Proof.
  apply emits_for_each; intros [kernel changes].
  unfold kernel_section, segments; simpl fst; simpl snd.
  change (heading kernel :: ?t) with ([heading kernel] ++ t).
  apply emits_seq; [apply emits_append|].
  rewrite <- flat_map_singleton.
  apply emits_for_each, emits_diff_line.
Qed.

(** The whole body, from any frame: the result and the final frame. *)
Lemma text_report_body_run (fr : Frame) :
  text_report_body fr
  = (Py.join Py.nl (spec_lines (diff_report fr)),
     mkFrame (diff_report fr) (spec_lines (diff_report fr))).
Proof.
  unfold text_report_body, bind at 1, new_lines.
  unfold bind at 1, read at 1; cbv beta iota; simpl diff_report.
  unfold bind at 1; rewrite emits_new_kernels; simpl diff_report; simpl lines.
  unfold bind at 1, read at 1; cbv beta iota; simpl diff_report.
  unfold bind at 1; rewrite emits_removed_kernels; simpl diff_report.
  unfold bind at 1, read at 1; cbv beta iota; simpl diff_report.
  unfold bind at 1; rewrite emits_changed_kernels; simpl diff_report.
  unfold bind, get_lines, ret; simpl lines.
  unfold spec_lines; now rewrite <- app_assoc.
Qed.

Lemma report_lines_spec (d : DiffReport) : report_lines d = spec_lines d.
Proof. unfold report_lines; now rewrite text_report_body_run. Qed.

Lemma text_report_unfold (d : DiffReport) :
  text_report d = Py.join Py.nl (spec_lines d).
Proof.
  unfold text_report, text_report_call; now rewrite text_report_body_run.
Qed.

(** ** Facts about dictionaries *)

Section PyDictFacts.
Context {K V : Type}.
Variable eqb : K -> K -> bool.

Lemma dict_set_fresh (k : K) (v : V) (d : PyDict K V) :
  dict_get eqb k d = None -> dict_set eqb k v d = d ++ [(k, v)].
Proof.
  induction d as [|[k' v'] rest IH]; simpl; [reflexivity|].
  destruct (eqb k k'); [discriminate|].
  intros H; now rewrite IH.
Qed.
End PyDictFacts.

Section Tabulated.
Context {V : Type}.
Variable f : Z -> V.

Lemma dict_get_tabulate_in (ks : list Z) (k : Z) :
  In k ks -> dict_get Z.eqb k (tabulate f ks) = Some (f k).
Proof.
  induction ks as [|i rest IH]; simpl; [tauto|].
  destruct (Z.eqb_spec k i) as [->|Hne]; [reflexivity|].
  intros [Heq|Hin]; [congruence | now apply IH].
Qed.

Lemma dict_get_tabulate_out (ks : list Z) (k : Z) :
  ~ In k ks -> dict_get Z.eqb k (tabulate f ks) = None.
Proof.
  induction ks as [|i rest IH]; simpl; [reflexivity|].
  destruct (Z.eqb_spec k i) as [->|Hne]; [tauto|].
  intros H; apply IH; tauto.
Qed.

Lemma dict_set_tabulate (ks : list Z) (k : Z) (v : V) :
  NoDup ks -> In k ks ->
  dict_set Z.eqb k v (tabulate f ks)
  = map (fun i => (i, if Z.eqb k i then v else f i)) ks.
Proof.
  induction ks as [|i rest IH]; simpl; [tauto|].
  intros Hnd Hin; inversion Hnd as [|? ? Hni Hnd']; subst.
  destruct (Z.eqb_spec k i) as [->|Hne].
  - f_equal. apply map_ext_in; intros j Hj.
    destruct (Z.eqb_spec i j) as [->|]; [tauto | reflexivity].
  - f_equal. apply IH; [assumption|].
    destruct Hin; [congruence | assumption].
Qed.
End Tabulated.

(** ** Facts about [range] and [enumerate] *)

Lemma range_of_nat_S (k : nat) :
  Py.range (Z.of_nat (S k)) = Py.range (Z.of_nat k) ++ [Z.of_nat k].
Proof.
  unfold Py.range; rewrite !Nat2Z.id, seq_S, map_app; reflexivity.
Qed.

Lemma in_range (n i : Z) : In i (Py.range n) <-> (0 <= i < n)%Z.
Proof.
  unfold Py.range; rewrite in_map_iff; split.
  - intros (j & <- & Hj); apply in_seq in Hj; lia.
  - intros H; exists (Z.to_nat i); split; [lia|]. apply in_seq; lia.
Qed.

Lemma range_NoDup (n : Z) : NoDup (Py.range n).
Proof.
  apply Finite.Injective_map_NoDup; [|apply seq_NoDup].
  intros a b; apply Nat2Z.inj.
Qed.

Lemma length_range (n : Z) : length (Py.range n) = Z.to_nat n.
Proof. unfold Py.range; now rewrite length_map, length_seq. Qed.

Lemma enumerate_from_snoc {A} (a : nat) (l : list A) (x : A) :
  enumerate_from a (l ++ [x])
  = enumerate_from a l ++ [(Z.of_nat (a + length l), x)].
Proof.
  revert a; induction l as [|y rest IH]; intros a; unfold enumerate_from in *;
    simpl.
  - now rewrite Nat.add_0_r.
  - rewrite IH; simpl; do 4 f_equal; lia.
Qed.

Lemma enumerate_snoc {A} (l : list A) (x : A) :
  Py.enumerate (l ++ [x]) = Py.enumerate l ++ [(Py.len l, x)].
Proof. apply (enumerate_from_snoc 0). Qed.

Lemma enumerate_keys {A} (l : list A) :
  map fst (Py.enumerate l) = Py.range (Py.len l).
Proof.
  unfold Py.range, Py.len; rewrite Nat2Z.id.
  induction l as [|x rest IH] using rev_ind; [reflexivity|].
  rewrite enumerate_snoc, map_app, IH, length_app, Nat.add_1_r, seq_S, map_app.
  reflexivity.
Qed.

Lemma length_enumerate {A} (l : list A) :
  length (Py.enumerate l) = length l.
Proof.
  unfold Py.enumerate.
  rewrite length_combine, length_map, length_seq; apply Nat.min_id.
Qed.

Lemma dict_get_enumerate_from {A V} (g : Z -> A -> V) (l : list A) :
  forall (a i : nat) (x : A),
    nth_error l i = Some x ->
    dict_get Z.eqb (Z.of_nat (a + i))
             (map (fun e => (fst e, g (fst e) (snd e))) (enumerate_from a l))
    = Some (g (Z.of_nat (a + i)) x).
Proof.
  induction l as [|y rest IH]; intros a i x Hnth; [now destruct i|].
  unfold enumerate_from in *; simpl.
  destruct i as [|i]; simpl in Hnth.
  - injection Hnth as ->. rewrite Nat.add_0_r, Z.eqb_refl; reflexivity.
  - destruct (Z.eqb_spec (Z.of_nat (a + S i)) (Z.of_nat a)); [lia|].
    replace (a + S i)%nat with (S a + i)%nat by lia.
    now apply IH.
Qed.

Lemma dict_get_enumerate_out {A V} (g : Z -> A -> V) (l : list A) :
  dict_get Z.eqb (Py.len l)
           (map (fun e => (fst e, g (fst e) (snd e))) (Py.enumerate l))
  = None.
Proof.
  assert (Hkeys : forall d : PyDict Z V,
             ~ In (Py.len l) (dict_keys d) ->
             dict_get Z.eqb (Py.len l) d = None).
  { induction d as [|[k v] rest IH]; simpl; [reflexivity|].
    destruct (Z.eqb_spec (Py.len l) k) as [->|Hne].
    - intros H; exfalso; apply H; now left.
    - intros H; apply IH; tauto. }
  apply Hkeys; unfold dict_keys.
  rewrite map_map; simpl. rewrite enumerate_keys, in_range; lia.
Qed.

(** ** Running the builder's loops *)

Lemma chain_succ_snoc (k : Z) (n : nat) :
  chain_succ k (Z.of_nat (S n))
  = chain_succ k (Z.of_nat n)
      ++ [(Z.of_nat n,
           if (Z.of_nat n <? k)%Z then [((Z.of_nat n + 1)%Z, [])] else [])].
Proof.
  unfold chain_succ, tabulate; now rewrite range_of_nat_S, map_app.
Qed.

Lemma add_nodes_loop_run (instrs : list Instruction) :
  exists pred,
    add_nodes_loop instrs empty_graph
    = mkDiGraph (labelled_nodes instrs) (chain_succ 0 (Py.len instrs)) pred.
Proof.
  induction instrs as [|ins rest [pred IH]] using rev_ind.
  - exists []; reflexivity.
  - unfold add_nodes_loop in *.
    rewrite enumerate_snoc, fold_left_app, IH; simpl fold_left.
    unfold add_node, dict_mem; simpl g_succ; simpl g_node; simpl g_pred.
    unfold chain_succ at 1.
    rewrite dict_get_tabulate_out by (rewrite in_range; lia).
    eexists; f_equal.
    + unfold labelled_nodes at 1.
      rewrite dict_set_fresh
        by apply (dict_get_enumerate_out
                    (fun i ins => [("label", format_label i ins)])).
      unfold labelled_nodes; now rewrite enumerate_snoc, map_app.
    + rewrite dict_set_fresh
        by (apply dict_get_tabulate_out; rewrite in_range; lia).
      unfold Py.len; rewrite length_app, Nat.add_1_r, chain_succ_snoc.
      destruct (Z.ltb_spec (Z.of_nat (length rest)) 0); [lia | reflexivity].
Qed.

Lemma ensure_node_known (n : Z) (G : DiGraph) :
  dict_get Z.eqb n (g_succ G) <> None -> ensure_node n G = G.
Proof.
  unfold ensure_node, dict_mem.
  destruct (dict_get Z.eqb n (g_succ G)); [reflexivity | congruence].
Qed.

Lemma add_edge_chain (n : Z) (k : nat) (G : DiGraph) :
  (Z.of_nat k + 1 < n)%Z ->
  g_succ G = chain_succ (Z.of_nat k) n ->
  g_node (add_edge (Z.of_nat k) (Z.of_nat k + 1) G) = g_node G
  /\ g_succ (add_edge (Z.of_nat k) (Z.of_nat k + 1) G)
     = chain_succ (Z.of_nat (S k)) n.
Proof.
  intros Hk Hsucc.
  replace (Z.of_nat (S k)) with (Z.of_nat k + 1)%Z by lia.
  assert (Hin : forall i, (0 <= i < n)%Z ->
                  dict_get Z.eqb i (g_succ G)
                  = Some (if (i <? Z.of_nat k)%Z
                          then [((i + 1)%Z, [])] else [])).
  { intros i Hi; rewrite Hsucc; unfold chain_succ.
    apply (dict_get_tabulate_in
             (fun i => if (i <? Z.of_nat k)%Z then [((i + 1)%Z, [])] else [])).
    now apply in_range. }
  unfold add_edge.
  rewrite (ensure_node_known (Z.of_nat k) G)
    by (rewrite Hin by lia; discriminate).
  rewrite (ensure_node_known (Z.of_nat k + 1) G)
    by (rewrite Hin by lia; discriminate).
  simpl; split; [reflexivity|].
  unfold get_or_empty; rewrite Hin by lia.
  rewrite Z.ltb_irrefl; simpl.
  rewrite Hsucc; unfold chain_succ at 1.
  rewrite dict_set_tabulate
    by (try apply range_NoDup; rewrite in_range; lia).
  unfold chain_succ, tabulate; apply map_ext_in; intros i Hi.
  apply in_range in Hi; f_equal.
  destruct (Z.eqb_spec (Z.of_nat k) i) as [<-|Hne].
  - destruct (Z.ltb_spec (Z.of_nat k) (Z.of_nat k + 1)); [reflexivity | lia].
  - destruct (Z.ltb_spec i (Z.of_nat k)), (Z.ltb_spec i (Z.of_nat k + 1));
      try reflexivity; lia.
Qed.

Lemma add_edges_steps (n : Z) (k : nat) (G : DiGraph) :
  (Z.of_nat k < n)%Z \/ k = 0%nat ->
  g_succ G = chain_succ 0 n ->
  let G' := fold_left (fun G i => add_edge i (i + 1) G)
                      (Py.range (Z.of_nat k)) G in
  g_node G' = g_node G /\ g_succ G' = chain_succ (Z.of_nat k) n.
Proof.
  intros Hk Hsucc; induction k as [|k IH]; [now split|].
  cbv zeta in *; rewrite range_of_nat_S, fold_left_app; simpl fold_left.
  destruct IH as [IHn IHs]; [lia|].
  destruct (add_edge_chain n k _ ltac:(lia) IHs) as [Hn Hs].
  split; [congruence | exact Hs].
Qed.

Lemma add_edges_loop_run (instrs : list Instruction) (G : DiGraph) :
  g_succ G = chain_succ 0 (Py.len instrs) ->
  g_node (add_edges_loop instrs G) = g_node G
  /\ g_succ (add_edges_loop instrs G)
     = chain_succ (Py.len instrs - 1) (Py.len instrs).
Proof.
  intros Hsucc; unfold add_edges_loop.
  destruct instrs as [|ins rest]; [now split|].
  replace (Py.len (ins :: rest) - 1)%Z with (Z.of_nat (length rest))
    by (unfold Py.len; simpl length; lia).
  apply add_edges_steps; [unfold Py.len; simpl length; lia | exact Hsucc].
Qed.

(** The edges of a chain, read off the successor dicts. *)
Lemma edges_chain_succ (k : Z) (n : nat) (nodes pred : _) :
  edges (mkDiGraph nodes (chain_succ k (Z.of_nat n)) pred)
  = map (fun i => (i, (i + 1)%Z)) (Py.range (Z.min k (Z.of_nat n))).
Proof.
  unfold edges; simpl g_succ.
  induction n as [|n IH].
  - unfold Py.range; replace (Z.to_nat (Z.min k (Z.of_nat 0))) with 0%nat by lia.
    reflexivity.
  - rewrite chain_succ_snoc, flat_map_app; unfold PyDict in *.
    rewrite IH.
    destruct (Z.ltb_spec (Z.of_nat n) k).
    + replace (Z.min k (Z.of_nat (S n))) with (Z.of_nat (S n)) by lia.
      replace (Z.min k (Z.of_nat n)) with (Z.of_nat n) by lia.
      now rewrite range_of_nat_S, map_app.
    + replace (Z.min k (Z.of_nat (S n))) with (Z.min k (Z.of_nat n)) by lia.
      apply app_nil_r.
Qed.

(** What a successful call builds: the labelled nodes and the chain. *)
Lemma create_instruction_graph_run
      (ptx_data : PyDict string KernelData) (kernel_name : string)
      (kernel : KernelData) :
  dict_get String.eqb kernel_name ptx_data = Some kernel ->
  exists G,
    create_instruction_graph ptx_data kernel_name = Ok G
    /\ g_node G = labelled_nodes (instructions kernel)
    /\ edges G
       = map (fun i => (i, (i + 1)%Z))
             (Py.range (Py.len (instructions kernel) - 1)).
Proof.
  intros Hget; unfold create_instruction_graph, dict_index; rewrite Hget.
  cbv zeta.
  destruct (add_nodes_loop_run (instructions kernel)) as [pred Hnodes].
  eexists; split; [reflexivity|].
  rewrite Hnodes.
  destruct (add_edges_loop_run (instructions kernel)
              (mkDiGraph (labelled_nodes (instructions kernel))
                         (chain_succ 0 (Py.len (instructions kernel))) pred)
              eq_refl) as [Hn Hs].
  split; [exact Hn|].
  destruct (add_edges_loop _ _) as [gn gs gp]; simpl in Hn, Hs; subst gn gs.
  unfold Py.len at 2; rewrite edges_chain_succ; do 2 f_equal.
  unfold Py.len; lia.
Qed.

(** ** The graph builder: theorems *)

(** C1.  When [kernel_name] is a key of [ptx_data] and its kernel has [n]
    instructions, the call returns a graph with exactly [n] nodes (the
    indices [0 .. n-1]) and [max(0, n-1)] edges, which are exactly the pairs
    [(i, i+1)] for [i] in [0 .. n-2], so no node has two successors; with no
    instructions the graph has no node and no edge. *)
Theorem create_instruction_graph_is_chain
        (ptx_data : PyDict string KernelData) (kernel_name : string)
        (kernel : KernelData) (n : Z) :
  dict_get String.eqb kernel_name ptx_data = Some kernel ->
  Py.len (instructions kernel) = n ->
  exists G,
    create_instruction_graph ptx_data kernel_name = Ok G
    /\ number_of_nodes G = n
    /\ nodes G = Py.range n
    /\ number_of_edges G = Z.max 0 (n - 1)
    /\ edges G = map (fun i => (i, (i + 1)%Z)) (Py.range (n - 1))
    /\ (forall u v, In (u, v) (edges G)
                    <-> (0 <= u <= n - 2)%Z /\ v = (u + 1)%Z)
    /\ (forall u v w, In (u, v) (edges G) -> In (u, w) (edges G) -> v = w)
    /\ (n = 0%Z -> nodes G = [] /\ edges G = []).
Proof.
  intros Hget Hlen.
  destruct (create_instruction_graph_run ptx_data kernel_name kernel Hget)
    as (G & Hrun & Hnodes & Hedges).
  rewrite Hlen in Hedges.
  assert (Hmem : forall u v, In (u, v) (edges G)
                             <-> (0 <= u <= n - 2)%Z /\ v = (u + 1)%Z).
  { intros u v; rewrite Hedges, in_map_iff; split.
    - intros (i & Heq & Hi); apply in_range in Hi.
      injection Heq as <- <-; lia.
    - intros [Hu ->]; exists u; split; [reflexivity|].
      apply in_range; lia. }
  assert (Hkeys : nodes G = Py.range n).
  { unfold nodes, dict_keys; rewrite Hnodes; unfold labelled_nodes.
    rewrite map_map; simpl. now rewrite enumerate_keys, Hlen. }
  exists G.
  split; [exact Hrun|].
  split.
  { unfold number_of_nodes, Py.len; rewrite Hnodes; unfold labelled_nodes.
    rewrite length_map, length_enumerate; exact Hlen. }
  split; [exact Hkeys|].
  split.
  { unfold number_of_edges, Py.len.
    rewrite Hedges, length_map, length_range; lia. }
  split; [exact Hedges|].
  split; [exact Hmem|].
  split.
  { intros u v w Hv Hw; apply Hmem in Hv, Hw; lia. }
  intros ->; rewrite Hkeys, Hedges; split; reflexivity.
Qed.

Lemma create_instruction_graph_is_chain_witness :
  exists G,
    create_instruction_graph sample_ptx "vec_add" = Ok G
    /\ number_of_nodes G = 3%Z
    /\ nodes G = Py.range 3
    /\ number_of_edges G = Z.max 0 (3 - 1)
    /\ edges G = map (fun i => (i, (i + 1)%Z)) (Py.range (3 - 1))
    /\ (forall u v, In (u, v) (edges G)
                    <-> (0 <= u <= 3 - 2)%Z /\ v = (u + 1)%Z)
    /\ (forall u v w, In (u, v) (edges G) -> In (u, w) (edges G) -> v = w)
    /\ (3%Z = 0%Z -> nodes G = [] /\ edges G = []).
Proof.
  apply (create_instruction_graph_is_chain
           sample_ptx "vec_add" (mkKernelData sample_instructions) 3);
    reflexivity.
Defined.

(** The chain on the sample kernel, and the empty kernel, evaluated. *)
Example sample_graph_edges :
  match create_instruction_graph sample_ptx "vec_add" with
  | Ok G => nodes G = [0; 1; 2]%Z /\ edges G = [(0, 1); (1, 2)]%Z
  | Raise _ => False
  end.
Proof. split; reflexivity. Qed.

Example empty_kernel_graph :
  create_instruction_graph sample_ptx "empty" = Ok empty_graph.
Proof. reflexivity. Qed.

(** C3.  When [kernel_name] is not a key of [ptx_data], the call raises
    [KeyError(kernel_name)]: the lookup's error is the call's result, and
    no graph is returned. *)
Theorem create_instruction_graph_missing_kernel
        (ptx_data : PyDict string KernelData) (kernel_name : string) :
  dict_get String.eqb kernel_name ptx_data = None ->
  create_instruction_graph ptx_data kernel_name = Raise (KeyError kernel_name)
  /\ (forall G, create_instruction_graph ptx_data kernel_name <> Ok G).
Proof.
  intros Hget; unfold create_instruction_graph, dict_index; rewrite Hget.
  split; [reflexivity | discriminate].
Qed.

Lemma create_instruction_graph_missing_kernel_witness :
  create_instruction_graph sample_ptx "saxpy" = Raise (KeyError "saxpy")
  /\ (forall G, create_instruction_graph sample_ptx "saxpy" <> Ok G).
Proof.
  apply (create_instruction_graph_missing_kernel sample_ptx "saxpy").
  reflexivity.
Defined.

(** C5.  On success the node dict holds, in instruction order, one entry
    per instruction: the entry of the instruction at index [i], with opcode
    [o] and operands [s], has key [i] and the single attribute [label], the
    text of [i], [": "], [o], a space and [str(s)].  Equal instructions at
    different indices keep their own nodes. *)
Theorem create_instruction_graph_labels
        (ptx_data : PyDict string KernelData) (kernel_name : string)
        (kernel : KernelData) :
  dict_get String.eqb kernel_name ptx_data = Some kernel ->
  exists G,
    create_instruction_graph ptx_data kernel_name = Ok G
    /\ g_node G
       = map (fun e =>
                (fst e,
                 [("label",
                   (Py.str_int (fst e) ++ ": " ++ opcode (snd e) ++ " "
                      ++ Py.str_list (operands (snd e)))%string)]))
             (Py.enumerate (instructions kernel))
    /\ (forall (i : nat) (ins : Instruction),
           nth_error (instructions kernel) i = Some ins ->
           node_label G (Z.of_nat i)
           = Some (Py.str_int (Z.of_nat i) ++ ": " ++ opcode ins ++ " "
                     ++ Py.str_list (operands ins))%string)
    /\ number_of_nodes G = Py.len (instructions kernel).
Proof.
  intros Hget.
  destruct (create_instruction_graph_run ptx_data kernel_name kernel Hget)
    as (G & Hrun & Hnodes & _).
  exists G; repeat split.
  - exact Hrun.
  - exact Hnodes.
  - intros i ins Hnth; unfold node_label; rewrite Hnodes.
    unfold labelled_nodes.
    pose proof (dict_get_enumerate_from
                  (fun i ins => [("label", format_label i ins)])
                  (instructions kernel) 0 i ins Hnth) as Hlookup.
    simpl Nat.add in Hlookup; unfold enumerate_from in Hlookup.
    fold (Py.enumerate (instructions kernel)) in Hlookup.
    unfold Attrs, PyDict in *; rewrite Hlookup; reflexivity.
  - unfold number_of_nodes, Py.len; rewrite Hnodes; unfold labelled_nodes.
    now rewrite length_map, length_enumerate.
Qed.

Lemma create_instruction_graph_labels_witness :
  exists G,
    create_instruction_graph sample_ptx "vec_add" = Ok G
    /\ g_node G
       = map (fun e =>
                (fst e,
                 [("label",
                   (Py.str_int (fst e) ++ ": " ++ opcode (snd e) ++ " "
                      ++ Py.str_list (operands (snd e)))%string)]))
             (Py.enumerate sample_instructions)
    /\ (forall (i : nat) (ins : Instruction),
           nth_error sample_instructions i = Some ins ->
           node_label G (Z.of_nat i)
           = Some (Py.str_int (Z.of_nat i) ++ ": " ++ opcode ins ++ " "
                     ++ Py.str_list (operands ins))%string)
    /\ number_of_nodes G = Py.len sample_instructions.
Proof.
  apply (create_instruction_graph_labels
           sample_ptx "vec_add" (mkKernelData sample_instructions)).
  reflexivity.
Defined.

(** The labels of the sample kernel, evaluated; the second kernel repeats one
    instruction and still gets two nodes. *)
Example sample_graph_labels :
  match create_instruction_graph sample_ptx "vec_add" with
  | Ok G =>
      g_node G
      = [(0%Z, [("label", "0: ld.param.u64 ['%rd1', '[k_param_0]']")]);
         (1%Z, [("label", "1: add.s32 ['%r1', '%r2', '%r3']")]);
         (2%Z, [("label", "2: ret []")])]
  | Raise _ => False
  end.
Proof. reflexivity. Qed.

Example repeated_instruction_nodes :
  match create_instruction_graph
          [("k", mkKernelData [mkInstruction "bar.sync" ["0"];
                               mkInstruction "bar.sync" ["0"]])] "k" with
  | Ok G =>
      g_node G = [(0%Z, [("label", "0: bar.sync ['0']")]);
                  (1%Z, [("label", "1: bar.sync ['0']")])]
  | Raise _ => False
  end.
Proof. reflexivity. Qed.

(** ** The report formatter: theorems *)

Lemma text_report_join (d : DiffReport) :
  text_report d = Py.join Py.nl (report_lines d).
Proof. now rewrite text_report_unfold, report_lines_spec. Qed.

(** The lines of one changed kernel sit together in the report. *)
Lemma changed_kernel_section (d : DiffReport) (k : string) (c : Changes) :
  In (k, c) (changed_kernels d) ->
  exists before after,
    report_lines d = before ++ kernel_section (k, c) ++ after.
Proof.
  intros Hin; apply in_split in Hin as (l1 & l2 & Hck).
  rewrite report_lines_spec; unfold spec_lines; rewrite Hck.
  rewrite flat_map_app; simpl flat_map.
  exists (new_kernels_line d ++ removed_kernels_line d
            ++ flat_map kernel_section l1), (flat_map kernel_section l2).
  now rewrite <- !app_assoc.
Qed.

(** C2.  The lines a call emits are, in this order: the new-kernels line if
    there are new kernels, the removed-kernels line if there are removed
    kernels, then for each changed kernel in mapping order its heading and
    one wrapped line per segment of its diff, styled by the segment's first
    character; the result is these lines joined by newlines. *)
Theorem text_report_refines_spec (d : DiffReport) :
  report_lines d
  = new_kernels_line d ++ removed_kernels_line d
      ++ flat_map (fun entry =>
                     heading (fst entry)
                       :: map (fun seg => wrap (classify seg) seg)
                              (Py.split Py.nl_char
                                        (instruction_diff (snd entry))))
                  (changed_kernels d)
  /\ text_report d = Py.join Py.nl (report_lines d)
  /\ text_report d = text_report_spec d.
Proof.
  split; [apply report_lines_spec|].
  split; [apply text_report_join | apply text_report_unfold].
Qed.

Example sample_report_lines :
  report_lines sample_report
  = ["<span class='added'>New Kernels Found: k_new, k_newer</span>";
     "<span class='removed'>Removed Kernels: k_old</span>";
     "<h3>Changes in k1:</h3>";
     "<span class='added'>+add r1</span>";
     "<span class='removed'>-sub r2</span>";
     "<span class='line-number'> mov r3</span>";
     "<span class='line-number'></span>";
     "<h3>Changes in k0:</h3>";
     "<span class='line-number'></span>"].
Proof. reflexivity. Qed.

(** C4.  Within a changed kernel's lines, every empty segment of the diff
    gives the line-number span around nothing, at the segment's position;
    when the diff ends with a newline, the kernel's last line is that empty
    line-number span. *)
Theorem empty_segments_are_context_lines
        (d : DiffReport) (k : string) (c : Changes) :
  In (k, c) (changed_kernels d) ->
  exists before body after,
    report_lines d
    = before ++ ("<h3>Changes in " ++ k ++ ":</h3>")%string :: body ++ after
    /\ length body = length (Py.split Py.nl_char (instruction_diff c))
    /\ (forall j,
           nth_error (Py.split Py.nl_char (instruction_diff c)) j = Some ""
           -> nth_error body j = Some "<span class='line-number'></span>")
    /\ (forall s,
           instruction_diff c = (s ++ Py.nl)%string ->
           exists body',
             body = body' ++ ["<span class='line-number'></span>"]
             /\ length body' = length (Py.split Py.nl_char s)).
Proof.
  intros Hin.
  destruct (changed_kernel_section d k c Hin) as (before & after & Hlines).
  exists before,
         (map (fun seg => wrap (classify seg) seg) (segments c)), after.
  split; [exact Hlines|].
  split; [apply length_map|].
  split.
  - intros j Hj.
    apply (map_nth_error (fun seg => wrap (classify seg) seg)) in Hj.
    exact Hj.
  - intros s Hs; unfold segments; rewrite Hs.
    unfold Py.nl; rewrite split_trailing_sep, map_app.
    eexists; split; [reflexivity | apply length_map].
Qed.

Lemma empty_segments_are_context_lines_witness :
  exists before body after,
    report_lines sample_report
    = before ++ ("<h3>Changes in " ++ "k1" ++ ":</h3>")%string :: body ++ after
    /\ length body
       = length (Py.split Py.nl_char
                   ("+add r1" ++ Py.nl ++ "-sub r2" ++ Py.nl
                      ++ " mov r3" ++ Py.nl)%string)
    /\ (forall j,
           nth_error (Py.split Py.nl_char
                        ("+add r1" ++ Py.nl ++ "-sub r2" ++ Py.nl
                           ++ " mov r3" ++ Py.nl)%string) j = Some ""
           -> nth_error body j = Some "<span class='line-number'></span>")
    /\ (forall s,
           ("+add r1" ++ Py.nl ++ "-sub r2" ++ Py.nl ++ " mov r3" ++ Py.nl)%string
           = (s ++ Py.nl)%string ->
           exists body',
             body = body' ++ ["<span class='line-number'></span>"]
             /\ length body' = length (Py.split Py.nl_char s)).
Proof.
  apply (empty_segments_are_context_lines
           sample_report "k1"
           (mkChanges ("+add r1" ++ Py.nl ++ "-sub r2" ++ Py.nl
                         ++ " mov r3" ++ Py.nl)%string)).
  simpl; left; reflexivity.
Defined.

(** C6.  One new kernel and nothing else: the report is the single line
    announcing it. *)
Theorem text_report_one_new_kernel :
  text_report (mkDiffReport ["k1"] [] [])
  = "<span class='added'>New Kernels Found: k1</span>"
  /\ report_lines (mkDiffReport ["k1"] [] [])
     = ["<span class='added'>New Kernels Found: k1</span>"]
  /\ Py.split Py.nl_char (text_report (mkDiffReport ["k1"] [] []))
     = ["<span class='added'>New Kernels Found: k1</span>"].
Proof. repeat split. Qed.

(** C7.  One changed kernel with an added, a removed and a context line: no
    summary line comes first; the heading is followed by exactly three
    lines, styled added, removed and line-number. *)
Theorem text_report_one_changed_kernel :
  let d := mkDiffReport [] []
             [("k1", mkChanges ("+add r1" ++ Py.nl ++ "-sub r2" ++ Py.nl
                                  ++ " mov r3")%string)] in
  report_lines d
  = ["<h3>Changes in k1:</h3>";
     "<span class='added'>+add r1</span>";
     "<span class='removed'>-sub r2</span>";
     "<span class='line-number'> mov r3</span>"]
  /\ report_lines d
     = [heading "k1"; wrap Added "+add r1"; wrap Removed "-sub r2";
        wrap LineNumber " mov r3"]
  /\ text_report d
     = ("<h3>Changes in k1:</h3>" ++ Py.nl
          ++ "<span class='added'>+add r1</span>" ++ Py.nl
          ++ "<span class='removed'>-sub r2</span>" ++ Py.nl
          ++ "<span class='line-number'> mov r3</span>")%string.
Proof. repeat split. Qed.

(** *** Running the formatter on the heap *)

Lemma hbind_returns {A B} (m : HM A) (f : A -> HM B) (h h' : Heap) (a : A) :
  m h = Returns a h' -> hbind m f h = f a h'.
Proof. intros H; unfold hbind; now rewrite H. Qed.

Lemma nth_error_extend (h t : Heap) (a : Addr) (o : Obj) :
  nth_error h a = Some o -> nth_error (h ++ t) a = Some o.
Proof.
  intros H; rewrite nth_error_app1; [exact H|].
  apply nth_error_Some; congruence.
Qed.

Lemma nth_error_fresh (h : Heap) (o : Obj) :
  nth_error (h ++ [o]) (length h) = Some o.
Proof. rewrite nth_error_app2, Nat.sub_diag by lia; reflexivity. Qed.

Lemma heap_set_fresh (h : Heap) (o o' : Obj) :
  heap_set (length h) o' (h ++ [o]) = h ++ [o'].
Proof. induction h as [|x rest IH]; simpl; congruence. Qed.

Lemma strs_of_map (l : list string) : strs_of (map VStr l) = Some l.
Proof. induction l as [|x rest IH]; simpl; [reflexivity | now rewrite IH]. Qed.

Lemma subscript_dict (h t : Heap) (a : Addr) (entries : PyDict string Val)
      (key : string) (x : Val) :
  nth_error h a = Some (ODict entries) ->
  dict_get String.eqb key entries = Some x ->
  subscript (VRef a) key (h ++ t) = Returns x (h ++ t).
Proof.
  intros Hobj Hkey; unfold subscript.
  now rewrite (nth_error_extend h t a _ Hobj), Hkey.
Qed.

Lemma truth_names (h t : Heap) (v : Val) (names : list string) :
  holds_names h v names ->
  truth v (h ++ t) = Returns (Py.truthy names) (h ++ t).
Proof.
  intros (a & -> & Hobj); unfold truth.
  rewrite (nth_error_extend h t a _ Hobj); now destruct names.
Qed.

Lemma str_join_names (h t : Heap) (sep : string) (v : Val)
      (names : list string) :
  holds_names h v names ->
  str_join sep v (h ++ t) = Returns (Py.join sep names) (h ++ t).
Proof.
  intros (a & -> & Hobj); unfold str_join.
  now rewrite (nth_error_extend h t a _ Hobj), strs_of_map.
Qed.

Lemma str_join_lines (h : Heap) (sep : string) (ls : list string) :
  str_join sep (VRef (length h)) (h ++ [OList (map VStr ls)])
  = Returns (Py.join sep ls) (h ++ [OList (map VStr ls)]).
Proof. unfold str_join; now rewrite nth_error_fresh, strs_of_map. Qed.

Lemma hemits_append (h : Heap) (x : string) :
  hemits h (list_append (VRef (length h)) (VStr x)) [x].
Proof.
  intros ls; unfold list_append.
  now rewrite nth_error_fresh, heap_set_fresh, map_app.
Qed.

Lemma hemits_ret (h : Heap) : hemits h (hret tt) [].
Proof. intros ls; unfold hret; now rewrite app_nil_r. Qed.

Lemma hemits_seq (h : Heap) (m1 m2 : HM unit) (o1 o2 : list string) :
  hemits h m1 o1 -> hemits h m2 o2 -> hemits h (m1 ;;; m2) (o1 ++ o2).
Proof.
  intros H1 H2 ls.
  rewrite (hbind_returns _ _ _ _ _ (H1 ls)), H2; now rewrite app_assoc.
Qed.

Lemma hemits_for_each {A B} (h : Heap) (body : A -> HM unit)
      (out : B -> list string) (xs : list A) (ys : list B) :
  Forall2 (fun x y => hemits h (body x) (out y)) xs ys ->
  hemits h (hfor_each xs body) (flat_map out ys).
Proof.
  induction 1 as [|x y xs' ys' Hxy _ IH]; simpl.
  - apply hemits_ret.
  - apply hemits_seq; assumption.
Qed.

Lemma hemits_diff_line (h : Heap) (line : string) :
  hemits h (emit_diff_line_heap (VRef (length h)) line)
         [wrap (classify line) line].
Proof.
  unfold emit_diff_line_heap.
  rewrite startswith_plus, startswith_minus.
  destruct line as [|c rest]; [apply hemits_append|].
  destruct c as [[] [] [] [] [] [] [] []]; apply hemits_append.
Qed.

Lemma hemits_kernel (h : Heap) (kernel : string) (changes : Val)
      (c : Changes) :
  holds_changes h changes c ->
  hemits h
    (list_append (VRef (length h))
                 (VStr ("<h3>Changes in " ++ kernel ++ ":</h3>")) ;;;
     diff <<- subscript changes "instruction_diff" ;;
     diff_lines <<- str_split Py.nl_char diff ;;
     hfor_each diff_lines (emit_diff_line_heap (VRef (length h))))
    (kernel_section (kernel, c)).
Proof.
  intros (a & entries & -> & Hobj & Hdiff).
  unfold kernel_section, segments; cbn [fst snd].
  change (heading kernel :: ?t) with ([heading kernel] ++ t).
  apply hemits_seq; [apply hemits_append|].
  intros ls.
  rewrite (hbind_returns _ _ _ _ _ (subscript_dict h _ a entries _ _ Hobj Hdiff)).
  rewrite (hbind_returns _ _ _ (h ++ [OList (map VStr ls)])
             (Py.split Py.nl_char (instruction_diff c)) eq_refl).
  rewrite <- flat_map_singleton.
  apply (hemits_for_each h (emit_diff_line_heap (VRef (length h)))
           (fun seg => [wrap (classify seg) seg])).
  clear; induction (Py.split Py.nl_char (instruction_diff c));
    constructor; [apply hemits_diff_line | assumption].
Qed.

Lemma hemits_summary (h : Heap) (a : Addr) (entries : PyDict string Val)
      (key : string) (v : Val) (names : list string)
      (render : string -> string) :
  nth_error h a = Some (ODict entries) ->
  dict_get String.eqb key entries = Some v ->
  holds_names h v names ->
  hemits h
    (hwhen (Py.truthy names)
       (x <<- subscript (VRef a) key ;;
        joined <<- str_join ", " x ;;
        list_append (VRef (length h)) (VStr (render joined))))
    (if Py.truthy names then [render (Py.join ", " names)] else []).
Proof.
  intros Hobj Hkey Hnames ls.
  destruct (Py.truthy names); unfold hwhen; [|apply hemits_ret].
  rewrite (hbind_returns _ _ _ _ _ (subscript_dict h _ a entries _ _ Hobj Hkey)).
  rewrite (hbind_returns _ _ _ _ _ (str_join_names h _ ", " v names Hnames)).
  apply hemits_append.
Qed.

(** A call on a heap that holds the report [d]: the result, and the heap
    the call leaves. *)
Lemma text_report_heap_run (h : Heap) (v : Val) (d : DiffReport) :
  holds_report h v d ->
  text_report_heap v h
  = Returns (Py.join Py.nl (spec_lines d))
            (h ++ [OList (map VStr (spec_lines d))]).
Proof.
  intros (a & entries & v1 & v2 & v3 & -> & Hobj & Hk1 & Hk2 & Hk3
          & Hnew & Hrem & Hck).
  destruct Hck as (a3 & entries3 & -> & Hobj3 & Hentries).
  unfold text_report_heap.
  rewrite (hbind_returns _ _ h (h ++ [OList (map VStr [])])
             (VRef (length h)) eq_refl).
  rewrite (hbind_returns _ _ _ _ _ (subscript_dict h _ a entries _ _ Hobj Hk1)).
  rewrite (hbind_returns _ _ _ _ _ (truth_names h _ v1 _ Hnew)).
  rewrite (hbind_returns _ _ _ _ _
             (hemits_summary h a entries "new_kernels" v1 (new_kernels d)
                (fun names => "<span class='added'>New Kernels Found: "
                                ++ names ++ "</span>")%string
                Hobj Hk1 Hnew [])).
  rewrite (hbind_returns _ _ _ _ _ (subscript_dict h _ a entries _ _ Hobj Hk2)).
  rewrite (hbind_returns _ _ _ _ _ (truth_names h _ v2 _ Hrem)).
  rewrite (hbind_returns _ _ _ _ _
             (hemits_summary h a entries "removed_kernels" v2
                (removed_kernels d)
                (fun names => "<span class='removed'>Removed Kernels: "
                                ++ names ++ "</span>")%string
                Hobj Hk2 Hrem _)).
  rewrite (hbind_returns _ _ _ _ _ (subscript_dict h _ a entries _ _ Hobj Hk3)).
  assert (Hitems : forall t,
             items_of (VRef a3) (h ++ t) = Returns entries3 (h ++ t)).
  { intros t; unfold items_of.
    now rewrite (nth_error_extend h t a3 _ Hobj3). }
  rewrite (hbind_returns _ _ _ _ _ (Hitems _)).
  assert (Hloop : hemits h
            (hfor_each entries3 (fun '(kernel, changes) =>
               list_append (VRef (length h))
                 (VStr ("<h3>Changes in " ++ kernel ++ ":</h3>")) ;;;
               diff <<- subscript changes "instruction_diff" ;;
               diff_lines <<- str_split Py.nl_char diff ;;
               hfor_each diff_lines (emit_diff_line_heap (VRef (length h)))))
            (flat_map kernel_section (changed_kernels d))).
  { apply hemits_for_each.
    eapply Forall2_impl; [|exact Hentries].
    intros [kernel changes] [k c] [Hk Hc]; simpl in Hk, Hc; subst k.
    now apply hemits_kernel. }
  rewrite (hbind_returns _ _ _ _ _ (Hloop _)).
  rewrite str_join_lines.
  match goal with
  | |- Returns (Py.join _ ?L) _ = _ =>
      assert (Hlines : L = spec_lines d)
  end.
  { unfold spec_lines, new_kernels_line, removed_kernels_line.
    rewrite <- app_assoc.
    destruct (new_kernels d), (removed_kernels d); reflexivity. }
  now rewrite Hlines.
Qed.

Lemma holds_report_extend (h t : Heap) (v : Val) (d : DiffReport) :
  holds_report h v d -> holds_report (h ++ t) v d.
Proof.
  intros (a & entries & v1 & v2 & v3 & -> & Hobj & Hk1 & Hk2 & Hk3
          & (a1 & -> & Hobj1) & (a2 & -> & Hobj2)
          & (a3 & entries3 & -> & Hobj3 & Hentries)).
  exists a, entries, (VRef a1), (VRef a2), (VRef a3).
  repeat split; try assumption.
  - now apply nth_error_extend.
  - exists a1; split; [reflexivity | now apply nth_error_extend].
  - exists a2; split; [reflexivity | now apply nth_error_extend].
  - exists a3, entries3; split; [reflexivity|].
    split; [now apply nth_error_extend|].
    eapply Forall2_impl; [|exact Hentries].
    intros entry kc [Hk (ac & ec & Hv & Hobjc & Hdiff)]; split; [exact Hk|].
    exists ac, ec; repeat split; try assumption.
    now apply nth_error_extend.
Qed.

(** C8.  On any heap that holds the report, however its objects are laid
    out or shared, the call returns the string that depends on the report
    alone; every object that existed before the call is the same after it
    (the call only adds its own list of lines); so the heap still holds the
    same report, and a second call on it returns the same string. *)
Theorem text_report_heap_pure (h : Heap) (v : Val) (d : DiffReport) :
  holds_report h v d ->
  exists h',
    text_report_heap v h = Returns (text_report d) h'
    /\ (forall a o, nth_error h a = Some o -> nth_error h' a = Some o)
    /\ (forall a, (a < length h)%nat -> nth_error h' a = nth_error h a)
    /\ holds_report h' v d
    /\ (exists h'', text_report_heap v h' = Returns (text_report d) h'')
    /\ (forall h2 v2,
           holds_report h2 v2 d ->
           exists h2', text_report_heap v2 h2 = Returns (text_report d) h2').
Proof.
  intros Hd.
  assert (Hrun : forall h0 v0,
             holds_report h0 v0 d ->
             text_report_heap v0 h0
             = Returns (text_report d)
                       (h0 ++ [OList (map VStr (report_lines d))])).
  { intros h0 v0 H0.
    rewrite (text_report_heap_run h0 v0 d H0).
    now rewrite text_report_unfold, report_lines_spec. }
  exists (h ++ [OList (map VStr (report_lines d))]).
  split; [now apply Hrun|].
  split; [intros a o; apply nth_error_extend|].
  split; [intros a Ha; now apply nth_error_app1|].
  split; [now apply holds_report_extend|].
  split.
  - eexists; apply Hrun; now apply holds_report_extend.
  - intros h2 v2 H2; eexists; now apply Hrun.
Qed.

Lemma text_report_heap_pure_witness :
  exists h',
    text_report_heap (VRef 3) sample_heap
    = Returns (text_report sample_heap_report) h'
    /\ (forall a o,
          nth_error sample_heap a = Some o -> nth_error h' a = Some o)
    /\ (forall a, (a < length sample_heap)%nat ->
                  nth_error h' a = nth_error sample_heap a)
    /\ holds_report h' (VRef 3) sample_heap_report
    /\ (exists h'',
          text_report_heap (VRef 3) h'
          = Returns (text_report sample_heap_report) h'')
    /\ (forall h2 v2,
           holds_report h2 v2 sample_heap_report ->
           exists h2',
             text_report_heap v2 h2
             = Returns (text_report sample_heap_report) h2').
Proof.
  apply (text_report_heap_pure sample_heap (VRef 3) sample_heap_report).
  exists 3%nat,
         [("new_kernels", VRef 0); ("removed_kernels", VRef 0);
          ("changed_kernels", VRef 2)],
         (VRef 0), (VRef 0), (VRef 2).
  repeat split.
  - exists 0%nat; split; reflexivity.
  - exists 0%nat; split; reflexivity.
  - exists 2%nat, [("k1", VRef 1)]; repeat split.
    constructor; [|constructor]; split; [reflexivity|].
    eexists 1%nat, _; repeat split.
Defined.

(** The call on the sample heap, evaluated: the four objects of the caller
    are as before, shared list included, and the new last object is the
    list of lines. *)
Example sample_heap_call :
  text_report_heap (VRef 3) sample_heap
  = Returns
      ("<span class='added'>New Kernels Found: k_new</span>" ++ Py.nl
         ++ "<span class='removed'>Removed Kernels: k_new</span>" ++ Py.nl
         ++ "<h3>Changes in k1:</h3>" ++ Py.nl
         ++ "<span class='added'>+add r1</span>" ++ Py.nl
         ++ "<span class='removed'>-sub r2</span>" ++ Py.nl
         ++ "<span class='line-number'> mov r3</span>")%string
      (sample_heap
         ++ [OList
               [VStr "<span class='added'>New Kernels Found: k_new</span>";
                VStr "<span class='removed'>Removed Kernels: k_new</span>";
                VStr "<h3>Changes in k1:</h3>";
                VStr "<span class='added'>+add r1</span>";
                VStr "<span class='removed'>-sub r2</span>";
                VStr "<span class='line-number'> mov r3</span>"]]).
Proof. reflexivity. Qed.

(** A report dict without one of the keys, or bound to a value of the wrong
    kind, makes the call raise; the caller's objects are untouched then
    too. *)
Example missing_key_call :
  text_report_heap (VRef 2) sample_heap
  = Raises (HKeyError "new_kernels") (sample_heap ++ [OList []]).
Proof. reflexivity. Qed.

(** C9.  With no new, removed or changed kernel the report is the empty
    string: no line is emitted, and joining no lines gives no character. *)
Theorem text_report_empty :
  text_report (mkDiffReport [] [] []) = ""
  /\ report_lines (mkDiffReport [] [] []) = []
  /\ text_report (mkDiffReport [] [] []) <> Py.nl.
Proof. repeat split; discriminate. Qed.



(** ** Further facts about [split] and [join] *)

Lemma length_split (sep : ascii) (s : string) :
  length (Py.split sep s) = S (count_char sep s).
Proof.
  induction s as [|c rest IH]; simpl; [reflexivity|].
  destruct (Ascii.eqb c sep); simpl; [now rewrite IH|].
  destruct (Py.split sep rest); simpl in *; lia.
Qed.


Lemma contains_app (c : ascii) (a b : string) :
  Py.contains c (a ++ b) = Py.contains c a || Py.contains c b.
Proof.
  induction a as [|d rest IH]; simpl; [reflexivity|].
  now rewrite IH, orb_assoc.
Qed.

Lemma split_app_sep (sep : ascii) (x rest : string) :
  Py.contains sep x = false ->
  Py.split sep (x ++ String sep rest) = x :: Py.split sep rest.
Proof.
  induction x as [|d x' IH]; simpl.
  - now rewrite Ascii.eqb_refl.
  - intros H; apply orb_false_iff in H as [Hd Hx].
    rewrite Ascii.eqb_sym, Hd, (IH Hx); reflexivity.
Qed.

Lemma split_no_sep (sep : ascii) (x : string) :
  Py.contains sep x = false -> Py.split sep x = [x].
Proof.
  induction x as [|d x' IH]; simpl; [reflexivity|].
  intros H; apply orb_false_iff in H as [Hd Hx].
  rewrite Ascii.eqb_sym, Hd, (IH Hx); reflexivity.
Qed.

Lemma split_join (sep : ascii) (parts : list string) :
  parts <> [] ->
  Forall (fun part => Py.contains sep part = false) parts ->
  Py.split sep (Py.join (String sep EmptyString) parts) = parts.
Proof.
  unfold Py.join; induction parts as [|x rest IH]; [congruence|].
  intros _ Hall; inversion Hall as [|? ? Hx Hrest]; subst.
  destruct rest as [|y rest']; simpl.
  - now apply split_no_sep.
  - simpl in IH; rewrite (split_app_sep sep x _ Hx).
    f_equal; apply IH; [discriminate | exact Hrest].
Qed.

Lemma split_segments_clean (sep : ascii) (s : string) :
  Forall (fun seg => Py.contains sep seg = false) (Py.split sep s).
Proof.
  induction s as [|c rest IH]; simpl; [now repeat constructor|].
  destruct (Ascii.eqb_spec c sep) as [->|Hne]; [now constructor|].
  destruct (Py.split sep rest) as [|seg segs] eqn:E;
    [now apply split_nonempty in E|].
  inversion IH as [|? ? Hseg Hsegs]; subst; constructor; [|exact Hsegs].
  simpl; rewrite Hseg, orb_false_r.
  destruct (Ascii.eqb_spec sep c); congruence.
Qed.

Lemma contains_join (c : ascii) (sep : string) (parts : list string) :
  Py.contains c sep = false ->
  Forall (fun part => Py.contains c part = false) parts ->
  Py.contains c (Py.join sep parts) = false.
Proof.
  intros Hsep; unfold Py.join; induction parts as [|x rest IH]; simpl;
    [reflexivity|].
  intros Hall; inversion Hall as [|? ? Hx Hrest]; subst.
  destruct rest; [exact Hx|].
  rewrite !contains_app, Hx, Hsep; simpl; now apply IH.
Qed.

Lemma join_cons_nonempty (sep : string) (c : ascii) (x : string)
      (rest : list string) :
  Py.join sep (String c x :: rest) <> "".
Proof. unfold Py.join; simpl; destruct rest; discriminate. Qed.

(** ** The report formatter: further properties *)

Lemma length_kernel_section (entry : string * Changes) :
  length (kernel_section entry) = section_size entry.
Proof.
  unfold kernel_section, segments, section_size; simpl.
  now rewrite length_map, length_split.
Qed.

(** X1.  The report has one line for the new kernels if there are any, one
    for the removed kernels if there are any, and for each changed kernel
    two lines plus one per newline character of its diff. *)
Theorem report_line_count (d : DiffReport) :
  length (report_lines d)
  = Nat.b2n (Py.truthy (new_kernels d))
    + Nat.b2n (Py.truthy (removed_kernels d))
    + list_sum (map (fun entry =>
                       2 + count_char Py.nl_char
                                      (instruction_diff (snd entry)))
                    (changed_kernels d)).
Proof.
  rewrite report_lines_spec; unfold spec_lines.
  rewrite !length_app, length_flat_map.
  unfold new_kernels_line, removed_kernels_line.
  rewrite (map_ext _ _ length_kernel_section); unfold section_size.
  destruct (new_kernels d), (removed_kernels d); simpl; lia.
Qed.

Lemma spec_lines_shape (d : DiffReport) :
  (new_kernels d = [] /\ removed_kernels d = [] /\ changed_kernels d = [])
  \/ (exists c x rest, spec_lines d = String c x :: rest).
Proof.
  destruct d as [nk rk ck]; unfold spec_lines; simpl.
  destruct nk as [|n nk']; [destruct rk as [|r rk']|];
    [destruct ck as [|[k c] ck']|..]; [left; auto|right..];
    unfold new_kernels_line, removed_kernels_line, wrap, heading; simpl;
    do 3 eexists; reflexivity.
Qed.

(** X2.  The report is the empty string exactly when there is no new, no
    removed and no changed kernel. *)
Theorem text_report_empty_iff (d : DiffReport) :
  text_report d = ""
  <-> new_kernels d = [] /\ removed_kernels d = []
      /\ changed_kernels d = [].
Proof.
  rewrite text_report_unfold.
  destruct (spec_lines_shape d) as [Hempty|(c & x & rest & Hshape)].
  - split; [intros _; exact Hempty|intros _].
    destruct d as [nk rk ck]; simpl in Hempty.
    destruct Hempty as (-> & -> & ->); reflexivity.
  - rewrite Hshape; split.
    + intros H; now apply join_cons_nonempty in H.
    + intros Hempty; exfalso.
      destruct d as [nk rk ck]; simpl in Hempty.
      destruct Hempty as (-> & -> & ->); discriminate.
Qed.

Lemma wrap_clean (st : Style) (text : string) :
  Py.contains Py.nl_char text = false ->
  Py.contains Py.nl_char (wrap st text) = false.
Proof.
  intros H; unfold wrap; destruct st; simpl; now rewrite contains_app, H.
Qed.

Lemma kernel_section_clean (entry : string * Changes) :
  Py.contains Py.nl_char (fst entry) = false ->
  Forall (fun line => Py.contains Py.nl_char line = false)
         (kernel_section entry).
Proof.
  intros Hk; unfold kernel_section; constructor.
  - unfold heading; simpl; now rewrite contains_app, Hk.
  - apply Forall_map; unfold segments.
    eapply Forall_impl; [|apply split_segments_clean].
    intros seg Hseg; now apply wrap_clean.
Qed.

(** X3.  When no kernel name holds a newline and the report has a line,
    splitting the returned string at the newlines gives back exactly the
    emitted lines: no emitted line is broken in two and none are merged. *)
Theorem text_report_lines_recoverable (d : DiffReport) :
  Forall (fun name => Py.contains Py.nl_char name = false) (new_kernels d) ->
  Forall (fun name => Py.contains Py.nl_char name = false)
         (removed_kernels d) ->
  Forall (fun name => Py.contains Py.nl_char name = false)
         (dict_keys (changed_kernels d)) ->
  report_lines d <> [] ->
  Py.split Py.nl_char (text_report d) = report_lines d.
Proof.
  intros Hnew Hrem Hkeys Hne.
  rewrite text_report_join; unfold Py.nl.
  apply split_join; [exact Hne|].
  rewrite report_lines_spec; unfold spec_lines.
  apply Forall_app; split; [|apply Forall_app; split].
  - unfold new_kernels_line.
    destruct (new_kernels d) as [|n rest] eqn:E; constructor; [|constructor].
    apply wrap_clean; rewrite contains_app, contains_join;
      [reflexivity | reflexivity | assumption].
  - unfold removed_kernels_line.
    destruct (removed_kernels d) as [|n rest] eqn:E; constructor;
      [|constructor].
    apply wrap_clean; rewrite contains_app, contains_join;
      [reflexivity | reflexivity | assumption].
  - apply Forall_flat_map.
    unfold dict_keys in Hkeys; rewrite Forall_map in Hkeys.
    eapply Forall_impl; [|exact Hkeys].
    intros entry; apply kernel_section_clean.
Qed.

Lemma text_report_lines_recoverable_witness :
  Py.split Py.nl_char (text_report sample_report)
  = report_lines sample_report.
Proof.
  apply (text_report_lines_recoverable sample_report).
  - repeat constructor.
  - repeat constructor.
  - repeat constructor.
  - discriminate.
Defined.

Lemma filter_headings_section (entry : string * Changes) :
  filter (fun line => Py.startswith line "<h3>") (kernel_section entry)
  = [heading (fst entry)].
Proof.
  unfold kernel_section; simpl; f_equal.
  induction (segments (snd entry)) as [|seg rest IH]; simpl; [reflexivity|].
  destruct (classify seg); exact IH.
Qed.

Lemma filter_headings_changed (ck : PyDict string Changes) :
  filter (fun line => Py.startswith line "<h3>") (flat_map kernel_section ck)
  = map heading (dict_keys ck).
Proof.
  induction ck as [|entry rest IH]; [reflexivity|].
  cbn [flat_map dict_keys map].
  rewrite filter_app, filter_headings_section; unfold dict_keys in IH.
  now rewrite IH.
Qed.

(** X4.  The lines of the report that start with [<h3>] are exactly the
    headings of the changed kernels, one per kernel, in mapping order; no
    summary line and no diff line, whatever its text, is one of them. *)
Theorem report_headings (d : DiffReport) :
  filter (fun line => Py.startswith line "<h3>") (report_lines d)
  = map (fun kernel => "<h3>Changes in " ++ kernel ++ ":</h3>")%string
        (dict_keys (changed_kernels d)).
Proof.
  rewrite report_lines_spec; unfold spec_lines.
  rewrite !filter_app.
  replace (filter _ (new_kernels_line d)) with (@nil string)
    by (unfold new_kernels_line; now destruct (new_kernels d)).
  replace (filter _ (removed_kernels_line d)) with (@nil string)
    by (unfold removed_kernels_line; now destruct (removed_kernels d)).
  rewrite filter_headings_changed; reflexivity.
Qed.



(** ** The graph builder: further properties *)

Lemma dict_keys_tabulate {V} (f : Z -> V) (ks : list Z) :
  dict_keys (tabulate f ks) = ks.
Proof.
  unfold dict_keys, tabulate; rewrite map_map; simpl; apply map_id.
Qed.

Lemma chain_pred_snoc (k : Z) (n : nat) :
  chain_pred k (Z.of_nat (S n))
  = chain_pred k (Z.of_nat n)
      ++ [(Z.of_nat n,
           if ((0 <? Z.of_nat n) && (Z.of_nat n <=? k))%Z
           then [((Z.of_nat n - 1)%Z, [])] else [])].
Proof.
  unfold chain_pred, tabulate; now rewrite range_of_nat_S, map_app.
Qed.

Lemma add_nodes_loop_pred (instrs : list Instruction) :
  g_pred (add_nodes_loop instrs empty_graph) = chain_pred 0 (Py.len instrs).
Proof.
  induction instrs as [|ins rest IH] using rev_ind; [reflexivity|].
  destruct (add_nodes_loop_run rest) as [pred Hrun].
  rewrite Hrun in IH; simpl in IH; subst pred.
  unfold add_nodes_loop in *.
  rewrite enumerate_snoc, fold_left_app, Hrun; simpl fold_left.
  unfold add_node, dict_mem; simpl g_succ; simpl g_pred.
  unfold chain_succ at 1.
  rewrite dict_get_tabulate_out by (rewrite in_range; lia).
  simpl g_pred.
  rewrite dict_set_fresh
    by (apply dict_get_tabulate_out; rewrite in_range; lia).
  unfold Py.len; rewrite length_app, Nat.add_1_r, chain_pred_snoc.
  destruct (Z.leb_spec (Z.of_nat (length rest)) 0),
           (Z.ltb_spec 0 (Z.of_nat (length rest)));
    try reflexivity; lia.
Qed.

Lemma add_edge_chain_pred (n : Z) (k : nat) (G : DiGraph) :
  (Z.of_nat k + 1 < n)%Z ->
  g_succ G = chain_succ (Z.of_nat k) n ->
  g_pred G = chain_pred (Z.of_nat k) n ->
  g_pred (add_edge (Z.of_nat k) (Z.of_nat k + 1) G)
  = chain_pred (Z.of_nat k + 1) n.
Proof.
  intros Hk Hsucc Hpred.
  assert (Hin : forall i, (0 <= i < n)%Z ->
                  dict_get Z.eqb i (g_succ G)
                  = Some (if (i <? Z.of_nat k)%Z
                          then [((i + 1)%Z, [])] else [])).
  { intros i Hi; rewrite Hsucc; unfold chain_succ.
    apply (dict_get_tabulate_in
             (fun i => if (i <? Z.of_nat k)%Z then [((i + 1)%Z, [])] else [])).
    now apply in_range. }
  unfold add_edge.
  rewrite (ensure_node_known (Z.of_nat k) G)
    by (rewrite Hin by lia; discriminate).
  rewrite (ensure_node_known (Z.of_nat k + 1) G)
    by (rewrite Hin by lia; discriminate).
  cbn [g_pred].
  unfold get_or_empty at 1; rewrite Hin by lia.
  rewrite Z.ltb_irrefl; cbn [dict_get].
  assert (Hinp : dict_get Z.eqb (Z.of_nat k + 1)%Z (g_pred G)
                 = Some (if ((0 <? Z.of_nat k + 1)
                             && (Z.of_nat k + 1 <=? Z.of_nat k))%Z
                         then [((Z.of_nat k + 1 - 1)%Z, [])] else [])).
  { rewrite Hpred; unfold chain_pred.
    apply (dict_get_tabulate_in
             (fun i => if ((0 <? i) && (i <=? Z.of_nat k))%Z
                       then [((i - 1)%Z, [])] else [])).
    apply in_range; lia. }
  unfold get_or_empty; rewrite Hinp, Hpred.
  replace (Z.of_nat k + 1 <=? Z.of_nat k)%Z with false
    by (symmetry; apply Z.leb_gt; lia).
  rewrite andb_false_r; cbn [dict_set].
  unfold chain_pred at 1.
  rewrite dict_set_tabulate
    by (try apply range_NoDup; rewrite in_range; lia).
  unfold chain_pred, tabulate; apply map_ext_in; intros i Hi.
  apply in_range in Hi; f_equal.
  destruct (Z.eqb_spec (Z.of_nat k + 1) i) as [<-|Hne].
  - replace (0 <? Z.of_nat k + 1)%Z with true
      by (symmetry; apply Z.ltb_lt; lia).
    rewrite Z.leb_refl; simpl; do 2 f_equal; lia.
  - destruct (Z.leb_spec i (Z.of_nat k)), (Z.leb_spec i (Z.of_nat k + 1));
      try reflexivity; lia.
Qed.

Lemma add_edges_steps_pred (n : Z) (k : nat) (G : DiGraph) :
  (Z.of_nat k < n)%Z \/ k = 0%nat ->
  g_succ G = chain_succ 0 n ->
  g_pred G = chain_pred 0 n ->
  g_pred (fold_left (fun G i => add_edge i (i + 1) G)
                    (Py.range (Z.of_nat k)) G)
  = chain_pred (Z.of_nat k) n.
Proof.
  intros Hk Hsucc Hpred; induction k as [|k IH]; [exact Hpred|].
  rewrite range_of_nat_S, fold_left_app; simpl fold_left.
  destruct (add_edges_steps n k G ltac:(lia) Hsucc) as [_ Hs].
  replace (Z.of_nat (S k)) with (Z.of_nat k + 1)%Z by lia.
  apply add_edge_chain_pred; [lia | exact Hs | apply IH; lia].
Qed.

(** The three dicts of the graph a successful call returns. *)
Lemma create_instruction_graph_dicts
      (ptx_data : PyDict string KernelData) (kernel_name : string)
      (kernel : KernelData) :
  dict_get String.eqb kernel_name ptx_data = Some kernel ->
  create_instruction_graph ptx_data kernel_name
  = Ok (mkDiGraph
          (labelled_nodes (instructions kernel))
          (chain_succ (Py.len (instructions kernel) - 1)
                      (Py.len (instructions kernel)))
          (chain_pred (Py.len (instructions kernel) - 1)
                      (Py.len (instructions kernel)))).
Proof.
  intros Hget; unfold create_instruction_graph, dict_index; rewrite Hget.
  cbv zeta; f_equal.
  pose proof (add_nodes_loop_pred (instructions kernel)) as Hpred.
  destruct (add_nodes_loop_run (instructions kernel)) as [pred Hnodes].
  rewrite Hnodes in Hpred |- *; simpl in Hpred; subst pred.
  set (G0 := mkDiGraph _ _ _).
  destruct (add_edges_loop_run (instructions kernel) G0 eq_refl) as [Hn Hs].
  assert (Hp : g_pred (add_edges_loop (instructions kernel) G0)
               = chain_pred (Py.len (instructions kernel) - 1)
                            (Py.len (instructions kernel))).
  { unfold add_edges_loop.
    destruct (instructions kernel) as [|ins rest] eqn:E; [reflexivity|].
    replace (Py.len (ins :: rest) - 1)%Z with (Z.of_nat (length rest))
      by (unfold Py.len; simpl length; lia).
    apply add_edges_steps_pred;
      [unfold Py.len; simpl length; lia | reflexivity | reflexivity]. }
  destruct (add_edges_loop _ _) as [gn gs gp]; simpl in Hn, Hs, Hp.
  now subst.
Qed.

(** X6.  In the graph a successful call returns, the successor and the
    predecessor dicts have the node dict's keys; every node but the last has
    exactly one successor, the next index, and the last has none; every node
    but the first has exactly one predecessor, the previous index, and the
    first has none; an index outside [0 .. n-1] is not a node. *)
Theorem create_instruction_graph_degrees
        (ptx_data : PyDict string KernelData) (kernel_name : string)
        (kernel : KernelData) (n : Z) :
  dict_get String.eqb kernel_name ptx_data = Some kernel ->
  Py.len (instructions kernel) = n ->
  exists G,
    create_instruction_graph ptx_data kernel_name = Ok G
    /\ dict_keys (g_succ G) = nodes G
    /\ dict_keys (g_pred G) = nodes G
    /\ (forall i, (0 <= i < n)%Z ->
          successors G i
          = Some (if (i <? n - 1)%Z then [(i + 1)%Z] else [])
          /\ predecessors G i
             = Some (if (0 <? i)%Z then [(i - 1)%Z] else []))
    /\ (forall i, ~ (0 <= i < n)%Z ->
          successors G i = None /\ predecessors G i = None).
Proof.
  intros Hget Hlen.
  rewrite (create_instruction_graph_dicts _ _ _ Hget), Hlen.
  eexists; split; [reflexivity|].
  unfold nodes, successors, predecessors; cbn [g_node g_succ g_pred].
  assert (Hkeys : dict_keys (labelled_nodes (instructions kernel))
                  = Py.range n).
  { unfold dict_keys, labelled_nodes; rewrite map_map; simpl.
    now rewrite enumerate_keys, Hlen. }
  rewrite Hkeys; unfold chain_succ, chain_pred.
  rewrite !dict_keys_tabulate.
  split; [reflexivity|]. split; [reflexivity|]. split.
  - intros i Hi.
    rewrite !dict_get_tabulate_in by (apply in_range; exact Hi).
    simpl option_map; split; f_equal.
    + now destruct (i <? n - 1)%Z.
    + destruct (Z.ltb_spec 0 i), (Z.leb_spec i (n - 1)); try reflexivity; lia.
  - intros i Hi.
    rewrite !dict_get_tabulate_out by (rewrite in_range; exact Hi).
    split; reflexivity.
Qed.

Lemma create_instruction_graph_degrees_witness :
  exists G,
    create_instruction_graph sample_ptx "vec_add" = Ok G
    /\ dict_keys (g_succ G) = nodes G
    /\ dict_keys (g_pred G) = nodes G
    /\ (forall i, (0 <= i < 3)%Z ->
          successors G i
          = Some (if (i <? 3 - 1)%Z then [(i + 1)%Z] else [])
          /\ predecessors G i
             = Some (if (0 <? i)%Z then [(i - 1)%Z] else []))
    /\ (forall i, ~ (0 <= i < 3)%Z ->
          successors G i = None /\ predecessors G i = None).
Proof.
  apply (create_instruction_graph_degrees
           sample_ptx "vec_add" (mkKernelData sample_instructions) 3);
    reflexivity.
Defined.

(** X7.  In the graph a successful call returns, there is a directed path
    from [u] to [v] exactly when both are nodes and [u < v]: every later
    instruction is reachable from every earlier one, nothing is reachable
    backwards, and the graph has no cycle. *)
Theorem create_instruction_graph_reachability
        (ptx_data : PyDict string KernelData) (kernel_name : string)
        (kernel : KernelData) (n : Z) :
  dict_get String.eqb kernel_name ptx_data = Some kernel ->
  Py.len (instructions kernel) = n ->
  exists G,
    create_instruction_graph ptx_data kernel_name = Ok G
    /\ (forall u v, path G u v <-> (0 <= u /\ u < v /\ v < n)%Z)
    /\ (forall u, ~ path G u u).
Proof.
  intros Hget Hlen.
  destruct (create_instruction_graph_run ptx_data kernel_name kernel Hget)
    as (G & Hrun & _ & Hedges).
  rewrite Hlen in Hedges.
  assert (Hmem : forall u v, In (u, v) (edges G)
                             <-> (0 <= u <= n - 2)%Z /\ v = (u + 1)%Z).
  { intros u v; rewrite Hedges, in_map_iff; split.
    - intros (i & Heq & Hi); apply in_range in Hi.
      injection Heq as <- <-; lia.
    - intros [Hu ->]; exists u; split; [reflexivity|].
      apply in_range; lia. }
  assert (Hfwd : forall u v, path G u v -> (0 <= u /\ u < v /\ v < n)%Z).
  { intros u v Hp; induction Hp as [u v He|u v w He _ IH];
      apply Hmem in He; lia. }
  assert (Hbwd : forall (d : nat) u,
             (0 <= u)%Z -> (u + 1 + Z.of_nat d < n)%Z ->
             path G u (u + 1 + Z.of_nat d)).
  { induction d as [|d IH]; intros u H0 Hn.
    - apply path_edge, Hmem; lia.
    - apply (path_step G u (u + 1)); [apply Hmem; lia|].
      replace (u + 1 + Z.of_nat (S d))%Z
        with (u + 1 + 1 + Z.of_nat d)%Z by lia.
      apply IH; lia. }
  exists G; split; [exact Hrun|]. split.
  - intros u v; split; [apply Hfwd|].
    intros (H0 & Huv & Hvn).
    replace v with (u + 1 + Z.of_nat (Z.to_nat (v - u - 1)))%Z by lia.
    apply Hbwd; lia.
  - intros u Hp; apply Hfwd in Hp; lia.
Qed.

Lemma create_instruction_graph_reachability_witness :
  exists G,
    create_instruction_graph sample_ptx "vec_add" = Ok G
    /\ (forall u v, path G u v <-> (0 <= u /\ u < v /\ v < 3)%Z)
    /\ (forall u, ~ path G u u).
Proof.
  apply (create_instruction_graph_reachability
           sample_ptx "vec_add" (mkKernelData sample_instructions) 3);
    reflexivity.
Defined.

(** *** Labels of different nodes differ *)

Lemma uint_text_no_colon (d : uint) :
  Py.contains ":" (NilEmpty.string_of_uint d) = false.
Proof. induction d; simpl; auto. Qed.

Lemma str_int_no_colon (i : Z) : Py.contains ":" (Py.str_int i) = false.
Proof.
  unfold Py.str_int, NilZero.string_of_int, NilZero.string_of_uint.
  destruct (Z.to_int i) as [d|d]; destruct d; simpl;
    auto using uint_text_no_colon.
Qed.

Lemma str_int_inj (i j : Z) : Py.str_int i = Py.str_int j -> i = j.
Proof.
  unfold Py.str_int; intros H; apply DecimalZ.to_int_inj.
  assert (Hnn : forall z, Z.to_int z <> Pos Nil /\ Z.to_int z <> Neg Nil).
  { intros [|p|p]; simpl; split; try discriminate;
      intros [= E]; now apply (Unsigned.to_uint_nonnil p). }
  assert (Hs : Some (Z.to_int i) = Some (Z.to_int j)).
  { rewrite <- (NilZero.isi (Z.to_int i)), <- (NilZero.isi (Z.to_int j));
      try apply Hnn.
    now rewrite H. }
  now injection Hs.
Qed.

Lemma prefix_before_char (c : ascii) (a b x y : string) :
  Py.contains c a = false -> Py.contains c b = false ->
  (a ++ String c x = b ++ String c y)%string -> a = b.
Proof.
  revert b; induction a as [|d a' IH]; intros [|e b']; simpl;
    intros Ha Hb Heq.
  - reflexivity.
  - injection Heq as -> _. now rewrite Ascii.eqb_refl in Hb.
  - injection Heq as -> _. now rewrite Ascii.eqb_refl in Ha.
  - apply orb_false_iff in Ha as [_ Ha], Hb as [_ Hb].
    injection Heq as -> Heq; f_equal; now apply IH.
Qed.

Lemma format_label_index (i j : Z) (a b : Instruction) :
  format_label i a = format_label j b -> i = j.
Proof.
  unfold format_label; intros H; apply str_int_inj.
  apply (prefix_before_char ":" _ _ _ _
           (str_int_no_colon i) (str_int_no_colon j) H).
Qed.

Lemma dict_get_labelled {A V} (g : Z -> A -> V) (l : list (Z * A))
      (i : Z) (v : V) :
  dict_get Z.eqb i (map (fun e => (fst e, g (fst e) (snd e))) l) = Some v ->
  exists x, v = g i x.
Proof.
  induction l as [|[k x] rest IH]; simpl; [discriminate|].
  destruct (Z.eqb_spec i k) as [->|Hne]; [|exact IH].
  intros [= <-]; now exists x.
Qed.

(** X8.  In the graph a successful call returns, two nodes with the same
    label are the same node: labels tell the nodes apart even when the
    instructions are equal. *)
Theorem create_instruction_graph_labels_distinct
        (ptx_data : PyDict string KernelData) (kernel_name : string)
        (kernel : KernelData) :
  dict_get String.eqb kernel_name ptx_data = Some kernel ->
  exists G,
    create_instruction_graph ptx_data kernel_name = Ok G
    /\ (forall i j text,
          node_label G i = Some text -> node_label G j = Some text ->
          i = j).
Proof.
  intros Hget.
  destruct (create_instruction_graph_run ptx_data kernel_name kernel Hget)
    as (G & Hrun & Hnodes & _).
  exists G; split; [exact Hrun|].
  assert (Hlabel : forall i text,
             node_label G i = Some text ->
             exists ins, text = format_label i ins).
  { intros i text; unfold node_label; rewrite Hnodes; unfold labelled_nodes.
    destruct (dict_get Z.eqb i _) as [attrs|] eqn:E; [|discriminate].
    apply (dict_get_labelled
             (fun i ins => [("label", format_label i ins)])) in E.
    destruct E as [ins ->]; simpl; intros [= <-]; now exists ins. }
  intros i j text Hi Hj.
  apply Hlabel in Hi as [a Ha], Hj as [b Hb].
  apply (format_label_index i j a b); congruence.
Qed.

Lemma create_instruction_graph_labels_distinct_witness :
  exists G,
    create_instruction_graph sample_ptx "vec_add" = Ok G
    /\ (forall i j text,
          node_label G i = Some text -> node_label G j = Some text ->
          i = j).
Proof.
  apply (create_instruction_graph_labels_distinct
           sample_ptx "vec_add" (mkKernelData sample_instructions)).
  reflexivity.
Defined.

(** *** Extending a kernel extends its graph *)

Lemma enumerate_from_app {A} (l extra : list A) :
  forall a,
    enumerate_from a (l ++ extra)
    = enumerate_from a l ++ enumerate_from (a + length l) extra.
Proof.
  induction l as [|x rest IH]; intros a; unfold enumerate_from in *; simpl.
  - now rewrite Nat.add_0_r.
  - rewrite IH.
    now replace (a + S (length rest))%nat with (S a + length rest)%nat by lia.
Qed.

Lemma range_prefix (a b : Z) :
  (a <= b)%Z -> exists more, Py.range b = Py.range a ++ more.
Proof.
  intros Hab; unfold Py.range.
  replace (Z.to_nat b) with (Z.to_nat a + (Z.to_nat b - Z.to_nat a))%nat
    by lia.
  rewrite seq_app, map_app; eexists; reflexivity.
Qed.

(** X9.  When one kernel's instructions are those of another followed by
    more, its graph extends the other's: the node dict starts with the same
    entries (same indices, same labels) and the edge list starts with the
    same edges. *)
Theorem create_instruction_graph_extends
        (ptx1 ptx2 : PyDict string KernelData) (name1 name2 : string)
        (kernel1 kernel2 : KernelData) (extra : list Instruction) :
  dict_get String.eqb name1 ptx1 = Some kernel1 ->
  dict_get String.eqb name2 ptx2 = Some kernel2 ->
  instructions kernel2 = instructions kernel1 ++ extra ->
  exists G1 G2 more_nodes more_edges,
    create_instruction_graph ptx1 name1 = Ok G1
    /\ create_instruction_graph ptx2 name2 = Ok G2
    /\ g_node G2 = g_node G1 ++ more_nodes
    /\ edges G2 = edges G1 ++ more_edges.
Proof.
  intros Hget1 Hget2 Hext.
  destruct (create_instruction_graph_run ptx1 name1 kernel1 Hget1)
    as (G1 & Hrun1 & Hnodes1 & Hedges1).
  destruct (create_instruction_graph_run ptx2 name2 kernel2 Hget2)
    as (G2 & Hrun2 & Hnodes2 & Hedges2).
  assert (Hle : (Py.len (instructions kernel1) - 1
                 <= Py.len (instructions kernel2) - 1)%Z)
    by (rewrite Hext; unfold Py.len; rewrite length_app; lia).
  destruct (range_prefix _ _ Hle) as [more Hmore].
  exists G1, G2; eexists; eexists.
  split; [exact Hrun1|]. split; [exact Hrun2|]. split.
  - rewrite Hnodes1, Hnodes2, Hext; unfold labelled_nodes.
    change (Py.enumerate (instructions kernel1 ++ extra))
      with (enumerate_from 0 (instructions kernel1 ++ extra)).
    rewrite (enumerate_from_app (instructions kernel1) extra 0), map_app.
    reflexivity.
  - rewrite Hedges1, Hedges2, Hmore, map_app; reflexivity.
Qed.

Lemma create_instruction_graph_extends_witness :
  exists G1 G2 more_nodes more_edges,
    create_instruction_graph sample_ptx "vec_add" = Ok G1
    /\ create_instruction_graph
         [("vec_add",
           mkKernelData (sample_instructions ++ [mkInstruction "exit" []]))]
         "vec_add" = Ok G2
    /\ g_node G2 = g_node G1 ++ more_nodes
    /\ edges G2 = edges G1 ++ more_edges.
Proof.
  apply (create_instruction_graph_extends
           sample_ptx
           [("vec_add",
             mkKernelData (sample_instructions ++ [mkInstruction "exit" []]))]
           "vec_add" "vec_add"
           (mkKernelData sample_instructions)
           (mkKernelData (sample_instructions ++ [mkInstruction "exit" []]))
           [mkInstruction "exit" []]);
    reflexivity.
Defined.
